(** * Recovery of globally pinned chunks: package [prod]

    A shallow embedding of [prod/prod.go] (recovery hook, repair handler and
    the pinner resolver behind them) together with the properties of its
    control flow: which feed is queried, which error comes back, and which
    calls reach the feed handler, the trojan sender and the chunk store.

    Go values are modelled as follows.
    - [string] is a byte string, as in Go.
    - A byte slice is a [list byte]; the nil slice and the empty slice are
      both [[]].
    - A function returning [(T, error)] returns a pair whose second
      component is an [option error]; [None] is Go's nil error.
    - Calls that leave the package and touch the outside world (the feed
      handler, the sender, the chunk store) run in the monad [M], which
      threads the state of that world and records every such call. *)

From Stdlib Require Import List String Ascii ZArith NArith Bool Lia.
From Stdlib.Strings Require Import Byte.
Import ListNotations.
Local Open Scope string_scope.
Local Open Scope list_scope.

Set Implicit Arguments.

(** ** Errors *)

(** The six error values declared by the package, and error values created
    elsewhere (by the feed handler, the topic builder, the sender).  Go
    compares error values by identity: [ident] stands for the identity of a
    foreign error and [msg] is what its [Error()] method returns. *)
Inductive error : Type :=
| ErrPublisher
| ErrPubKey
| ErrFeedLookup
| ErrFeedContent
| ErrContextHash
| ErrTargets
| ForeignError (ident : N) (msg : string).

(** [err.Error()] *)
Definition Error (e : error) : string :=
  match e with
  | ErrPublisher => "failed to decode publisher"
  | ErrPubKey => "failed to decompress public key"
  | ErrFeedLookup => "failed to look up recovery feed"
  | ErrFeedContent => "failed to get content for recovery feed"
  | ErrContextHash => "failed to extract hash from context"
  | ErrTargets => "failed to unmarshal targets in recovery feed content"
  | ForeignError _ msg => msg
  end.

(** Result of a foreign call that returns a pointer and an error, and hands
    out a non-nil pointer exactly when its error is nil. *)
Inductive result (A : Type) : Type :=
| Ok (a : A)
| Fail (e : error).
Arguments Fail {A} e.

(** ** Bytes and [encoding/hex] *)

Definition bytes := list byte.

Definition bytes_of_string (s : string) : bytes :=
  map byte_of_ascii (list_ascii_of_string s).

Definition byte_of_N (n : N) : byte := byte_of_ascii (ascii_of_N n).

Module hex.

Inductive DecodeError : Type :=
| ErrLength
| InvalidByteError (c : ascii).

(** [fromHexChar]: the value of one hexadecimal digit. *)
Definition fromHexChar (c : ascii) : N * bool :=
  let n := N_of_ascii c in
  (if (48 <=? n) && (n <=? 57) then (n - 48, true)             (* 0 to 9 *)
   else if (97 <=? n) && (n <=? 102) then (n - 97 + 10, true)  (* a to f *)
   else if (65 <=? n) && (n <=? 70) then (n - 65 + 10, true)   (* A to F *)
   else (0, false))%N.

(** [Decode]: two digits make one byte; the bytes decoded before the first
    problem are returned with the error. *)
Fixpoint Decode (src : list ascii) : bytes * option DecodeError :=
  match src with
  | [] => ([], None)
  | [p] =>
      if snd (fromHexChar p) then ([], Some ErrLength)
      else ([], Some (InvalidByteError p))
  | p :: q :: rest =>
      let '(a, oka) := fromHexChar p in
      if negb oka then ([], Some (InvalidByteError p)) else
      let '(b, okb) := fromHexChar q in
      if negb okb then ([], Some (InvalidByteError q)) else
      let '(out, err) := Decode rest in
      (byte_of_N (N.lor (N.shiftl a 4) b) :: out, err)
  end%N.

Definition DecodeString (s : string) : bytes * option DecodeError :=
  Decode (list_ascii_of_string s).

(** What "valid hexadecimal" means, stated without reference to the
    decoder: an even number of characters, each one a hexadecimal digit. *)
Definition is_hex_digit (c : ascii) : bool :=
  let n := N_of_ascii c in
  ((48 <=? n) && (n <=? 57) || (97 <=? n) && (n <=? 102)
   || (65 <=? n) && (n <=? 70))%N.

Definition valid (s : string) : bool :=
  Nat.even (String.length s) &&
  forallb is_hex_digit (list_ascii_of_string s).

End hex.

(** ** [context.Context] *)

(** Dynamically typed values carried by a context ([interface{}]). *)
Inductive any : Type :=
| AnyString (s : string)
| AnyInt (n : Z)
| AnyBool (b : bool).

Definition any_eqb (x y : any) : bool :=
  match x, y with
  | AnyString a, AnyString b => String.eqb a b
  | AnyInt a, AnyInt b => Z.eqb a b
  | AnyBool a, AnyBool b => Bool.eqb a b
  | _, _ => false
  end.

(** A context is the chain of its [WithValue] bindings, innermost first, and
    the time left until its deadline in milliseconds, if it has one. *)
Record Context : Type := mkContext {
  bindings : list (any * any);
  deadline : option Z
}.

Module context.

Definition Background : Context := mkContext [] None.

Definition WithValue (parent : Context) (key val : any) : Context :=
  mkContext ((key, val) :: bindings parent) (deadline parent).

(** The earlier of the parent's deadline and the new one. *)
Definition WithTimeout (parent : Context) (ms : Z) : Context :=
  mkContext (bindings parent)
    (Some (match deadline parent with
           | Some d => Z.min d ms
           | None => ms
           end)).

(** [ctx.Value(key)]: the innermost binding of [key], or nil. *)
Fixpoint lookup (bs : list (any * any)) (key : any) : option any :=
  match bs with
  | [] => None
  | (k, v) :: rest => if any_eqb k key then Some v else lookup rest key
  end.

Definition Value (ctx : Context) (key : any) : option any :=
  lookup (bindings ctx) key.

End context.

(** The type assertion [v.(string)] in its two-result form. *)
Definition assert_string (v : option any) : string * bool :=
  match v with
  | Some (AnyString s) => (s, true)
  | _ => ("", false)
  end.

(** ** Types of the packages [prod] builds on *)

(** [feed.Topic], 32 bytes, and [common.Address], 20 bytes. *)
Definition FeedTopic := bytes.
Definition Address := bytes.

(** The zero values [feed.Topic{}] and [common.Address{}]. *)
Definition zeroTopic : FeedTopic := repeat x00 32.
Definition zeroAddress : Address := repeat x00 20.

(** [feed.Feed] *)
Record Feed : Type := mkFeed {
  Topic : FeedTopic;
  User : Address
}.

(** [ecdsa.PublicKey] on the curve the [crypto] package fixes. *)
Record PublicKey : Type := mkPublicKey {
  X : Z;
  Y : Z
}.

(** [trojan.Target], [trojan.Targets], [trojan.Topic], [chunk.Address]. *)
Definition Target := bytes.
Definition Targets := list Target.
Definition TrojanTopic := bytes.
Definition ChunkAddress := bytes.

(** Modelled from the spec: [trojan.Message] is declared outside the files
    at hand; section 3 describes a recovery message as a fixed-topic message
    whose payload is a chunk address. *)
Record Message : Type := mkMessage {
  MessageTopic : TrojanTopic;
  Payload : bytes
}.

(** ** What the package takes from outside

    Everything [prod.go] calls but does not define.  The functions of
    [feed], [crypto], [trojan] and [encoding/json] are pure; [World] is the
    state of everything behind the feed handler, the sender and the chunk
    store. *)
Class Library : Type := {
  World : Type;
  (** [lookup.Epoch] and the hint [lookup.NoClue] *)
  Epoch : Type;
  NoClue : Epoch;
  (** [pss.Monitor] *)
  Monitor : Type;
  (** [chunk.ModeSet] and its value [chunk.ModeSetReUpload] *)
  ModeSet : Type;
  ModeSetReUpload : ModeSet;
  (** [feed.NewTopic(name, relatedContent)] *)
  feed_NewTopic : string -> bytes -> FeedTopic * option error;
  (** [crypto.DecompressPubkey] and [crypto.PubkeyToAddress] *)
  crypto_DecompressPubkey : bytes -> result PublicKey;
  crypto_PubkeyToAddress : PublicKey -> Address;
  (** [trojan.NewTopic] *)
  trojan_NewTopic : string -> TrojanTopic;
  (** [json.Unmarshal(data, targets)] on a fresh [*trojan.Targets]: what
      the pointer holds afterwards, and the error. *)
  json_Unmarshal : bytes -> Targets * option error
}.

Section Interfaces.
Context {L : Library}.

(** Modelled from the spec: [feed.Query] and [feed.NewQueryLatest] are
    declared outside the files at hand; section 6 says a query names a
    feed and a discovery mode. *)
Record Query : Type := mkQuery {
  QueryFeed : Feed;
  Hint : Epoch
}.

Definition NewQueryLatest (fd : Feed) (hint : Epoch) : Query :=
  mkQuery fd hint.

(** The two methods of [feed.GenericHandler] that [prod.go] calls.  The
    cache entry [Lookup] returns and the address [GetContent] returns are
    never looked at by the callers here. *)
Record GenericHandler : Type := mkHandler {
  Lookup : Context -> Query -> World -> option error * World;
  GetContent : Feed -> World -> (bytes * bytes * option error) * World
}.

(** [type sender func(ctx, targets, topic, payload)], returning a pointer
    to a [pss.Monitor] (possibly nil) and an error. *)
Definition sender : Type :=
  Context -> Targets -> TrojanTopic -> bytes ->
  World -> (option Monitor * option error) * World.

(** The method [Set(ctx, mode, addrs...)] of [chunk.ValidatorStore]. *)
Record ValidatorStore : Type := mkStore {
  Set_ : Context -> ModeSet -> list ChunkAddress ->
         World -> option error * World
}.

(** Calls that leave the package. *)
Inductive Event : Type :=
| CallLookup (ctx : Context) (query : Query)
| CallGetContent (fd : Feed)
| CallSend (ctx : Context) (targets : Targets) (topic : TrojanTopic)
           (payload : bytes)
| CallSet (ctx : Context) (mode : ModeSet) (addrs : list ChunkAddress).

(** A computation returns its value, the world it leaves behind and the
    calls it made, in order. *)
Definition M (A : Type) : Type := World -> A * World * list Event.

Definition ret {A : Type} (a : A) : M A := fun w => (a, w, []).

Definition bind {A B : Type} (c : M A) (k : A -> M B) : M B :=
  fun w =>
    let '(a, w1, evs1) := c w in
    let '(b, w2, evs2) := k a w1 in
    (b, w2, evs1 ++ evs2).

(** One foreign call: run it on the world and record it. *)
Definition call {A : Type} (ev : Event) (f : World -> A * World) : M A :=
  fun w => let '(a, w1) := f w in (a, w1, [ev]).

(** The calls to the sender among recorded calls. *)
Definition is_send (ev : Event) : bool :=
  match ev with
  | CallSend _ _ _ _ => true
  | _ => false
  end.

Definition sends (evs : list Event) : list Event := filter is_send evs.

End Interfaces.

Declare Scope prod_scope.
Delimit Scope prod_scope with prod.
Notation "x <- c ;; k" := (bind c (fun x => k))
  (at level 61, c at next level, right associativity) : prod_scope.
Notation "' pat <- c ;; k" := (bind c (fun x => match x with pat => k end))
  (at level 61, pat pattern, c at next level, right associativity) : prod_scope.
Local Open Scope prod_scope.

(** ** Package [prod] *)

Section Prod.
Context {L : Library}.

(** [RecoveryTopicText] is the string used to construct the recovery topic. *)
Definition RecoveryTopicText : string := "RECOVERY".

(** [RecoveryTopic] is the topic used for repairing globally pinned chunks. *)
Definition RecoveryTopic : TrojanTopic := trojan_NewTopic RecoveryTopicText.

Definition publisherToAddress (publisher : string) : Address * option error :=
  let '(publisherBytes, err) := hex.DecodeString publisher in
  match err with
  | Some _ => (zeroAddress, Some ErrPublisher)
  | None =>
      match crypto_DecompressPubkey publisherBytes with
      | Fail _ => (zeroAddress, Some ErrPubKey)
      | Ok pubKey => (crypto_PubkeyToAddress pubKey, None)
      end
  end.

Definition getFeedTopicAndUser (topicText : string) (publisher : string)
  : FeedTopic * Address * option error :=
  (* get feed topic from topic text *)
  let '(topic, err) := feed_NewTopic topicText [] in
  match err with
  | Some _ => (zeroTopic, zeroAddress, err)
  | None =>
      (* get feed user from publisher *)
      let '(user, err) := publisherToAddress publisher in
      match err with
      | Some _ => (zeroTopic, zeroAddress, err)
      | None => (topic, user, None)
      end
  end.

(** [err != nil && err.Error() != "no feed updates found"] *)
Definition lookupFailed (err : option error) : bool :=
  match err with
  | Some e => negb (String.eqb (Error e) "no feed updates found")
  | None => false
  end.

Definition getFeedContent (ctx : Context) (handler : GenericHandler)
    (topic : FeedTopic) (user : Address) : M (bytes * option error) :=
  let fd := mkFeed topic user in
  let query := NewQueryLatest fd NoClue in
  let ctx := context.WithTimeout ctx 100 in
  err <- call (CallLookup ctx query) (Lookup handler ctx query) ;;
  (* feed should still be queried even if there are no updates *)
  if lookupFailed err then ret ([], Some ErrFeedLookup)
  else
    ' (_, content, err) <- call (CallGetContent fd) (GetContent handler fd) ;;
    match err with
    | Some _ => ret ([], Some ErrFeedContent)
    | None => ret (content, None)
    end.

Definition queryRecoveryFeed (ctx : Context) (topicText : string)
    (publisher : string) (handler : GenericHandler)
  : M (bytes * option error) :=
  let '(topic, user, err) := getFeedTopicAndUser topicText publisher in
  ' (content, err) <-
    match err with
    | None => getFeedContent ctx handler topic user
    | Some _ => ret ([], err)
    end ;;
  match err with
  | Some _ => ret ([], err)
  | None => ret (content, err)
  end.

(** The last step of [getPinners]: extract targets from feed content. *)
Definition unmarshalTargets (feedContent : bytes) : Targets * option error :=
  let '(targets, err) := json_Unmarshal feedContent in
  match err with
  | Some _ => ([], Some ErrTargets)
  | None => (targets, None)
  end.

(** [getPinners] returns the specific target pinners for a corresponding
    chunk by consulting recovery feeds. *)
Definition getPinners (ctx : Context) (handler : GenericHandler)
    (fallbackPublisher : string) : M (Targets * option error) :=
  (* query feed using recovery topic and publisher if present *)
  let '(publisher, _) :=
    assert_string (context.Value ctx (AnyString "publisher")) in
  ' (feedContent, err) <-
    queryRecoveryFeed ctx RecoveryTopicText publisher handler ;;
  (* if there is an error and no fallback publisher is available, fail at
     this point *)
  match err with
  | Some _ =>
      if String.eqb fallbackPublisher "" then ret ([], err)
      else
        (* query feed using recovery topic + hash and fallback publisher *)
        let '(hash, ok) :=
          assert_string (context.Value ctx (AnyString "hash")) in
        if negb ok then ret ([], Some ErrContextHash)
        else
          ' (feedContent, err) <-
            queryRecoveryFeed ctx
              (RecoveryTopicText ++ "_" ++ hash)%string
              fallbackPublisher handler ;;
          match err with
          | Some _ => ret ([], err)
          | None => ret (unmarshalTargets feedContent)
          end
  | None => ret (unmarshalTargets feedContent)
  end.

(** [RecoveryHook] defines code to be executed upon failing to retrieve
    pinned chunks. *)
Definition RecoveryHook : Type := Context -> ChunkAddress -> M (option error).

(** [NewRecoveryHook] returns a new [RecoveryHook] with the sender function
    defined. *)
Definition NewRecoveryHook (send : sender) (handler : GenericHandler)
    (fallbackPublisher : string) : RecoveryHook :=
  fun ctx chunkAddress =>
    ' (targets, err) <- getPinners ctx handler fallbackPublisher ;;
    match err with
    | Some _ => ret err
    | None =>
        let payload := chunkAddress in
        ' (_, err) <-
          call (CallSend ctx targets RecoveryTopic payload)
               (send ctx targets RecoveryTopic payload) ;;
        match err with
        | Some _ => ret err
        | None => ret None
        end
    end.

(** [pss.Handler]: a function of a message with no result. *)
Definition Handler : Type := Message -> M unit.

(** [NewRepairHandler] creates a repair function to re-upload globally
    pinned chunks to the network with the given store. *)
Definition NewRepairHandler (s : ValidatorStore) : Handler :=
  fun m =>
    let chAddr := Payload m in
    _ <- call (CallSet context.Background ModeSetReUpload [chAddr])
              (Set_ s context.Background ModeSetReUpload [chAddr]) ;;
    ret tt.

End Prod.

(** ** Putting the two ends together *)

Section Compositions.
Context {L : Library}.

(** A transport that hands the message straight to a repair handler on the
    same world; it reports no monitor and no error. *)
Definition loopback (s : ValidatorStore) : sender :=
  fun ctx targets topic payload w =>
    let '(_, w1, _) := NewRepairHandler s (mkMessage topic payload) w in
    ((None, None), w1).

(** Messages handled one after the other, as they are delivered. *)
Fixpoint deliver (h : Handler) (ms : list Message) : M unit :=
  match ms with
  | [] => ret tt
  | m :: rest => _ <- h m ;; deliver h rest
  end.

(** The calls to the chunk store among recorded calls. *)
Definition is_set (ev : Event) : bool :=
  match ev with
  | CallSet _ _ _ => true
  | _ => false
  end.

(** The calls of one feed query under [ctx]: none, a lookup, or a lookup
    and a content read on the same feed. *)
Definition one_query (ctx : Context) (evs : list Event) : Prop :=
  evs = [] \/
  exists fd,
    let lookup := CallLookup (context.WithTimeout ctx 100)
                    (NewQueryLatest fd NoClue) in
    evs = [lookup] \/ evs = [lookup; CallGetContent fd].

(** A handler that only reads. *)
Definition read_only (handler : GenericHandler) : Prop :=
  (forall ctx query w, snd (Lookup handler ctx query w) = w) /\
  (forall fd w, snd (GetContent handler fd w) = w).

End Compositions.

(** Upper case of the ASCII letters, to compare publishers. *)
Definition upper (c : ascii) : ascii :=
  let n := N_of_ascii c in
  if ((97 <=? n) && (n <=? 122))%N then ascii_of_N (n - 32) else c.

Fixpoint uppercase (s : string) : string :=
  match s with
  | EmptyString => EmptyString
  | String c rest => String (upper c) (uppercase rest)
  end.

(** ** Package [swap]: prices *)

Module swap.

(** Placeholder prices, in honey. *)
Definition RetrieveRequestPrice : Z := 863614458.
Definition ChunkDeliveryPrice : Z := 7772530120.

(** Default conversion of honey into output currency. *)
Definition defaultHoneyPrice : Z := 1.

(** The calculation the prices are documented to come from: 0.0000014336
    dollars per chunk, 166 dollars per ether, in hundredths of a wei. *)
Definition wei_per_chunk_x100 : Z := (14336 * 10 ^ 8 * 100 / 166)%Z.

(** A tenth of a quantity given in hundredths, to the nearest unit. *)
Definition tenths (n : Z) (x100 : Z) : Z := ((n * x100 + 500) / 1000)%Z.

End swap.

(** ** Package [chunk/testing]: [CheckTag] *)

Section ChunkTesting.

(** [chunk.State] and the three states [CheckTag] reads. *)
Variable State : Type.
Variables StateSplit StateSeen StateStored : State.

(** What [CheckTag] reads of a [chunk.Tag]: its counters by state and its
    total. *)
Record Tag : Type := mkTag {
  Get : State -> Z;
  TotalCounter : Z
}.

(** How the test goes on: [t.Fatal] and [t.Fatalf] end it with a message,
    kept as the format and its arguments. *)
Inductive outcome : Type :=
| Passed
| Fatal (format : string) (args : list Z).

(** [CheckTag] checks the first tag in the api struct to be in a certain
    state; a nil tag is [None]. *)
Definition CheckTag (tag : option Tag)
    (split stored seen sent synced total : Z) : outcome :=
  match tag with
  | None => Fatal "no tag found" []
  | Some tag =>
      let tSplit := Get tag StateSplit in
      if negb (tSplit =? split)%Z then
        Fatal "should have had split chunks, got %d want %d" [tSplit; split]
      else
      let tSeen := Get tag StateSeen in
      if negb (tSeen =? seen)%Z then
        Fatal "should have had seen chunks, got %d want %d" [tSeen; seen]
      else
      let tStored := Get tag StateStored in
      if negb (tStored =? stored)%Z then
        Fatal "mismatch stored chunks, got %d want %d" [tStored; stored]
      else
      let tTotal := TotalCounter tag in
      if negb (tTotal =? total)%Z then
        Fatal "mismatch total chunks, got %d want %d" [tTotal; total]
      else Passed
  end.

End ChunkTesting.

(** ** JSON documents *)

Module json.

(** White space of JSON: space, tab, line feed and carriage return. *)
Definition is_space (c : ascii) : bool :=
  let n := N_of_ascii c in
  ((n =? 32) || (n =? 9) || (n =? 10) || (n =? 13))%N.

Fixpoint skip_space (l : list ascii) : list ascii :=
  match l with
  | [] => []
  | c :: rest => if is_space c then skip_space rest else l
  end.

(** What it takes for bytes to parse as a JSON array, of targets or of
    anything else: after white space the document opens with a bracket. *)
Definition is_array (data : bytes) : bool :=
  match skip_space (map ascii_of_byte data) with
  | c :: _ => (N_of_ascii c =? 91)%N
  | [] => false
  end.

End json.

(** ** A small node to run the package on

    One instance of [Library], with a feed store, an outbox and a chunk
    store simple enough to compute with.  Feed content is decoded from the
    compact form of the wire format.  Public keys live on a curve over a
    small field, and addresses and trojan topics skip the hash: stand-ins
    with the same shape as the real ones. *)
Module Node.

Fixpoint bytes_eqb (a b : bytes) : bool :=
  match a, b with
  | [], [] => true
  | x :: a', y :: b' =>
      N.eqb (Byte.to_N x) (Byte.to_N y) && bytes_eqb a' b'
  | _, _ => false
  end.

Definition feed_eqb (a b : Feed) : bool :=
  bytes_eqb (Topic a) (Topic b) && bytes_eqb (User a) (User b).

Record world : Type := mkWorld {
  updates : list Feed;              (* feeds with a recorded update *)
  contents : list (Feed * bytes);   (* content addressable per feed *)
  outbox : list (Targets * TrojanTopic * bytes);
  reuploads : list ChunkAddress
}.

Inductive mode : Type := SetAccess | SetSync | SetRemove | SetReUpload.

(** Big-endian value of a byte string, and the inverse at a fixed width. *)
Definition be_value (bs : bytes) : Z :=
  fold_left (fun acc b => acc * 256 + Z.of_N (Byte.to_N b))%Z bs 0%Z.

Fixpoint be_bytes (width : nat) (z : Z) : bytes :=
  match width with
  | O => []
  | S w => be_bytes w (z / 256) ++ [byte_of_N (Z.to_N (z mod 256))]
  end.

Definition pad_to (n : nat) (bs : bytes) : bytes :=
  firstn n (bs ++ repeat x00 n).

Definition xor_bytes (a b : bytes) : bytes :=
  map (fun p => byte_of_N (N.lxor (Byte.to_N (fst p)) (Byte.to_N (snd p))))
      (combine a b).

(** Topic of a name: the name xored into the related content, 32 bytes
    long; a name that does not fit is an error. *)
Definition NewTopic (name : string) (related : bytes)
  : FeedTopic * option error :=
  let nameBytes := bytes_of_string name in
  (xor_bytes (pad_to 32 related) (pad_to 32 nameBytes),
   if (32 <? List.length nameBytes)%nat
   then Some (ForeignError 10 "feed: topic too long")
   else None).

(** The curve y^2 = x^3 + 7 over the field of order [P].  A compressed
    key is a sign byte, 2 or 3, followed by the four bytes of [x]. *)
Definition P : Z := (2 ^ 31 - 1)%Z.

Fixpoint powmod (b : Z) (e : positive) (m : Z) : Z :=
  match e with
  | xH => b mod m
  | xO e' => let r := powmod b e' m in (r * r) mod m
  | xI e' => let r := powmod b e' m in (((r * r) mod m) * b) mod m
  end%Z.

Definition DecompressPubkey (pubkey : bytes) : result PublicKey :=
  let invalid := Fail (ForeignError 11 "invalid public key") in
  match pubkey with
  | prefix :: rest =>
      let sign := Byte.to_N prefix in
      if negb (Nat.eqb (List.length rest) 4) then invalid
      else if negb ((sign =? 2) || (sign =? 3))%N then invalid
      else
        let x := be_value rest in
        if (P <=? x)%Z then invalid
        else
          let y2 := ((x * x * x + 7) mod P)%Z in
          let y := powmod y2 (Z.to_pos ((P + 1) / 4)) P in
          if negb ((y * y) mod P =? y2)%Z then invalid
          else if Bool.eqb (Z.odd y) (N.odd sign)
               then Ok (mkPublicKey x y)
               else Ok (mkPublicKey x (P - y))
  | [] => invalid
  end.

(** Stand-in for the hash of the key: [X] on 20 bytes. *)
Definition PubkeyToAddress (k : PublicKey) : Address :=
  be_bytes 20 (X k).

(** Stand-in for the hash of the text: the text itself, 32 bytes long. *)
Definition TrojanNewTopic (text : string) : TrojanTopic :=
  pad_to 32 (bytes_of_string text).

(** Base64, standard alphabet, with padding. *)
Definition b64_value (c : ascii) : option N :=
  let n := N_of_ascii c in
  (if (65 <=? n) && (n <=? 90) then Some (n - 65)
   else if (97 <=? n) && (n <=? 122) then Some (n - 97 + 26)
   else if (48 <=? n) && (n <=? 57) then Some (n - 48 + 52)
   else if n =? 43 then Some 62
   else if n =? 47 then Some 63
   else None)%N.

Definition is_pad (c : ascii) : bool := (N_of_ascii c =? 61)%N.

Fixpoint b64_decode (l : list ascii) : option bytes :=
  match l with
  | [] => Some []
  | a :: b :: c :: d :: rest =>
      match b64_value a, b64_value b with
      | Some va, Some vb =>
          let b0 := byte_of_N (va * 4 + vb / 16)%N in
          if is_pad c && is_pad d then
            match rest with [] => Some [b0] | _ => None end
          else
            match b64_value c with
            | Some vc =>
                let b1 := byte_of_N ((vb mod 16) * 16 + vc / 4)%N in
                if is_pad d then
                  match rest with [] => Some [b0; b1] | _ => None end
                else
                  match b64_value d, b64_decode rest with
                  | Some vd, Some tl =>
                      Some (b0 :: b1 :: byte_of_N ((vc mod 4) * 64 + vd)%N
                               :: tl)
                  | _, _ => None
                  end
            | None => None
            end
      | _, _ => None
      end
  | _ => None
  end.

(** A JSON array of base64 strings, without white space. *)
Inductive scanning : Type :=
| Start | AfterOpen | InString (acc : list ascii)
| AfterString | AfterComma | Done.

Definition is_char (n : N) (c : ascii) : bool := (N_of_ascii c =? n)%N.

Fixpoint scan (st : scanning) (out : Targets) (l : list ascii)
  : option Targets :=
  match l with
  | [] => match st with Done => Some (rev out) | _ => None end
  | c :: l' =>
      match st with
      | Start => if is_char 91 c then scan AfterOpen out l' else None
      | AfterOpen =>
          if is_char 93 c then scan Done out l'
          else if is_char 34 c then scan (InString []) out l'
          else None
      | InString acc =>
          if is_char 34 c then
            match b64_decode (rev acc) with
            | Some t => scan AfterString (t :: out) l'
            | None => None
            end
          else scan (InString (c :: acc)) out l'
      | AfterString =>
          if is_char 44 c then scan AfterComma out l'
          else if is_char 93 c then scan Done out l'
          else None
      | AfterComma =>
          if is_char 34 c then scan (InString []) out l' else None
      | Done => None
      end
  end.

Definition Unmarshal (data : bytes) : Targets * option error :=
  match scan Start [] (map ascii_of_byte data) with
  | Some targets => (targets, None)
  | None => ([], Some (ForeignError 12 "json: cannot unmarshal"))
  end.

#[export] Instance library : Library := {|
  World := world;
  Epoch := Z * Z;
  NoClue := (0, 0)%Z;
  Monitor := unit;
  ModeSet := mode;
  ModeSetReUpload := SetReUpload;
  feed_NewTopic := NewTopic;
  crypto_DecompressPubkey := DecompressPubkey;
  crypto_PubkeyToAddress := PubkeyToAddress;
  trojan_NewTopic := TrojanNewTopic;
  json_Unmarshal := Unmarshal
|}.

Fixpoint content_of (fd : Feed) (cs : list (Feed * bytes)) : option bytes :=
  match cs with
  | [] => None
  | (f, c) :: rest => if feed_eqb f fd then Some c else content_of fd rest
  end.

Definition expired (ctx : Context) : bool :=
  match deadline ctx with
  | Some d => (d <=? 0)%Z
  | None => false
  end.

(** The feed handler of the node: a lookup fails when the deadline has
    passed or when the feed has no recorded update; content is read from
    the store. *)
Definition handler : GenericHandler := {|
  Lookup := fun ctx query (w : World) =>
    if expired ctx
    then (Some (ForeignError 20 "context deadline exceeded"), w)
    else if existsb (feed_eqb (QueryFeed query)) (updates w)
    then (None, w)
    else (Some (ForeignError 21 "no feed updates found"), w);
  GetContent := fun fd (w : World) =>
    match content_of fd (contents w) with
    | Some c => (([], c, None), w)
    | None => (([], [], Some (ForeignError 22 "content not found")), w)
    end
|}.

(** The sender of the node: queues the message; refuses an empty payload. *)
Definition send : sender :=
  fun ctx targets topic payload (w : World) =>
    match payload with
    | [] => ((None, Some (ForeignError 30 "empty payload")), w)
    | _ =>
        ((Some tt, None),
         mkWorld (updates w) (contents w)
                 (outbox w ++ [(targets, topic, payload)]) (reuploads w))
    end.

(** The chunk store of the node: records the request; refuses an address
    that is not 32 bytes long. *)
Definition store : ValidatorStore := {|
  Set_ := fun ctx md addrs (w : World) =>
    if forallb (fun a => Nat.eqb (List.length a) 32) addrs
    then (None,
          mkWorld (updates w) (contents w) (outbox w) (reuploads w ++ addrs))
    else (Some (ForeignError 40 "invalid chunk"), w)
|}.

(** The same store with its errors silenced. *)
Definition silent_store : ValidatorStore := {|
  Set_ := fun ctx md addrs (w : World) =>
    (None, snd (Set_ store ctx md addrs w))
|}.

(** Two points of the curve in compressed form: a publisher and a
    fallback publisher. *)
Definition alice : string := "020a0b0c0d".
Definition bob : string := "0301020304".

Definition feed_of (topicText publisher : string) : Feed :=
  mkFeed (fst (NewTopic topicText []))
         (fst (publisherToAddress publisher)).

Definition ctx_of (kvs : list (string * any)) : Context :=
  fold_left (fun c kv => context.WithValue c (AnyString (fst kv)) (snd kv))
            kvs context.Background.

Definition empty_world : world := mkWorld [] [] [] [].

(** Scenarios.  The primary feed of [alice], the fallback feed of [bob]
    for the hash "abc123", feed content naming one target, and content
    that is not an array. *)
Definition recovery_feed : Feed := feed_of "RECOVERY" alice.
Definition fallback_feed : Feed := feed_of "RECOVERY_abc123" bob.

Definition quote : string := String (ascii_of_nat 34) "".

Definition one_target : bytes :=
  bytes_of_string ("[" ++ quote ++ "AQID" ++ quote ++ "]")%string.

Definition garbled : bytes := bytes_of_string "{}".

(** Primary feed published and updated. *)
Definition w_primary : world :=
  mkWorld [recovery_feed] [(recovery_feed, one_target)] [] [].

(** Only the fallback feed has content, and no update is recorded. *)
Definition w_fallback : world :=
  mkWorld [] [(fallback_feed, one_target)] [] [].

(** The primary feed has content but no recorded update. *)
Definition w_unrecorded : world :=
  mkWorld [] [(recovery_feed, one_target)] [] [].

(** An update is recorded for the primary feed but its content is gone. *)
Definition w_stale : world := mkWorld [recovery_feed] [] [] [].

Definition w_garbled : world :=
  mkWorld [recovery_feed] [(recovery_feed, garbled)] [] [].

Definition w_garbled_fallback : world :=
  mkWorld [] [(fallback_feed, garbled)] [] [].

Definition ctx_alice : Context := ctx_of [("publisher", AnyString alice)].

Definition ctx_alice_hash : Context :=
  ctx_of [("publisher", AnyString alice); ("hash", AnyString "abc123")].

(** A context whose "publisher" is a number. *)
Definition ctx_number : Context := ctx_of [("publisher", AnyInt 7)].

(** A context whose deadline has passed. *)
Definition ctx_expired : Context :=
  mkContext (bindings ctx_alice) (Some 0%Z).

(** The two calls of a complete query of [fd]. *)
Definition calls_on (ctx : Context) (fd : Feed) : list Event :=
  [CallLookup (context.WithTimeout ctx 100) (NewQueryLatest fd NoClue);
   CallGetContent fd].

Definition chunk_address : ChunkAddress := repeat x2a 32.

(** Valid hexadecimal of the right length whose [x] is not on the curve. *)
Definition off_curve : string := "0212345678".

(** [w_primary] once the recovery message for [chunk_address] is queued,
    and the empty node once the re-upload of [chunk_address] is recorded. *)
Definition w_sent : world :=
  mkWorld [recovery_feed] [(recovery_feed, one_target)]
          [([[x01; x02; x03]], TrojanNewTopic "RECOVERY", chunk_address)] [].

Definition w_reuploaded : world := mkWorld [] [] [] [chunk_address].

Definition recovery_message (payload : bytes) : Message :=
  mkMessage (TrojanNewTopic "RECOVERY") payload.

(** [alice] written with capital letters. *)
Definition alice_upper : string := "020A0B0C0D".

(** The states of a tag, and two tags with the same split, seen and stored
    counters and the same total that differ in what was sent and synced. *)
Inductive tag_state : Type := Split | Stored | Seen | Sent | Synced.

Definition tag_a : Tag tag_state :=
  mkTag (fun st => match st with
                   | Split => 10 | Stored => 8 | Seen => 2
                   | Sent => 1 | Synced => 0
                   end)%Z 10%Z.

Definition tag_b : Tag tag_state :=
  mkTag (fun st => match st with
                   | Split => 10 | Stored => 8 | Seen => 2
                   | Sent => 5 | Synced => 5
                   end)%Z 10%Z.

(** The call that sends [payload] to the one target under [ctx_alice]. *)
Definition sent (payload : bytes) : Event :=
  CallSend ctx_alice [[x01; x02; x03]] (TrojanNewTopic "RECOVERY") payload.


(** The document null, and a node whose primary feed holds it. *)
Definition null_content : bytes := bytes_of_string "null".

Definition w_null : world :=
  mkWorld [recovery_feed] [(recovery_feed, null_content)] [] [].

(** [Unmarshal] with the rule of [encoding/json] for the document null: a
    slice is set to nil and no error is returned. *)
Definition UnmarshalGo (data : bytes) : Targets * option error :=
  if bytes_eqb data null_content then ([], None) else Unmarshal data.

(** The node with that decoder; everything else is as in [library]. *)
Definition go_library : Library := {|
  World := world;
  Epoch := Z * Z;
  NoClue := (0, 0)%Z;
  Monitor := unit;
  ModeSet := mode;
  ModeSetReUpload := SetReUpload;
  feed_NewTopic := NewTopic;
  crypto_DecompressPubkey := DecompressPubkey;
  crypto_PubkeyToAddress := PubkeyToAddress;
  trojan_NewTopic := TrojanNewTopic;
  json_Unmarshal := UnmarshalGo
|}.

Definition go_handler : @GenericHandler go_library :=
  @mkHandler go_library
    (fun ctx query w =>
       @Lookup library handler ctx
         (@mkQuery library (@QueryFeed go_library query)
            (@Hint go_library query)) w)
    (fun fd w => @GetContent library handler fd w).

Definition go_calls_on (ctx : Context) (fd : Feed)
  : list (@Event go_library) :=
  [@CallLookup go_library (context.WithTimeout ctx 100)
     (@NewQueryLatest go_library fd (0, 0)%Z);
   @CallGetContent go_library fd].

End Node.

(** * Properties *)

(** ** [encoding/hex] accepts exactly the valid strings *)

Lemma fromHexChar_ok (c : ascii) :
  snd (hex.fromHexChar c) = hex.is_hex_digit c.
Proof.
  unfold hex.fromHexChar, hex.is_hex_digit.
  destruct ((48 <=? N_of_ascii c)%N && (N_of_ascii c <=? 57)%N); [reflexivity|].
  destruct ((97 <=? N_of_ascii c)%N && (N_of_ascii c <=? 102)%N); [reflexivity|].
  destruct ((65 <=? N_of_ascii c)%N && (N_of_ascii c <=? 70)%N); reflexivity.
Qed.

Lemma Decode_ok_pair (l : list ascii) :
  (snd (hex.Decode l) = None <->
   Nat.even (List.length l) && forallb hex.is_hex_digit l = true) /\
  (forall c, snd (hex.Decode (c :: l)) = None <->
   Nat.even (List.length (c :: l)) && forallb hex.is_hex_digit (c :: l) = true).
Proof.
  induction l as [|q rest [IHeven IHodd]].
  - split; [simpl; tauto|].
    intros c; simpl. destruct (snd (hex.fromHexChar c)); simpl; split; discriminate.
  - split; [apply IHodd|].
    intros p.
    change (hex.Decode (p :: q :: rest)) with
      (let '(a, oka) := hex.fromHexChar p in
       if negb oka then ([], Some (hex.InvalidByteError p)) else
       let '(b, okb) := hex.fromHexChar q in
       if negb okb then ([], Some (hex.InvalidByteError q)) else
       let '(out, err) := hex.Decode rest in
       (byte_of_N (N.lor (N.shiftl a 4) b) :: out, err)).
    change (Nat.even (List.length (p :: q :: rest)))
      with (Nat.even (List.length rest)).
    change (forallb hex.is_hex_digit (p :: q :: rest))
      with (hex.is_hex_digit p && (hex.is_hex_digit q && forallb hex.is_hex_digit rest)).
    rewrite <- (fromHexChar_ok p), <- (fromHexChar_ok q).
    destruct (hex.fromHexChar p) as [a [|]]; simpl;
      [|rewrite andb_false_r; split; discriminate].
    destruct (hex.fromHexChar q) as [b [|]]; simpl;
      [|rewrite andb_false_r; split; discriminate].
    destruct (hex.Decode rest) as [out err]; simpl in *. exact IHeven.
Qed.

Lemma length_chars (s : string) :
  List.length (list_ascii_of_string s) = String.length s.
Proof. induction s as [|c s IH]; simpl; congruence. Qed.

Lemma DecodeString_ok (s : string) :
  snd (hex.DecodeString s) = None <-> hex.valid s = true.
Proof.
  unfold hex.DecodeString, hex.valid.
  rewrite <- (length_chars s).
  apply Decode_ok_pair.
Qed.

Lemma DecodeString_empty : hex.DecodeString "" = ([], None).
Proof. reflexivity. Qed.

(** ** Address resolution and one feed query *)

Section AddressAndFeed.
Context {L : Library}.

(** C6.  [publisherToAddress] depends on its argument alone (it takes no
    world and makes no call that is recorded).  A string that is not valid
    hexadecimal gives [ErrPublisher]; valid hexadecimal whose bytes the
    curve rejects gives [ErrPubKey]; valid hexadecimal that decompresses
    to a key gives the address of that key and no error. *)
Theorem publisherToAddress_spec (publisher : string) :
  (hex.valid publisher = false ->
   publisherToAddress publisher = (zeroAddress, Some ErrPublisher)) /\
  (hex.valid publisher = true ->
   forall e,
     crypto_DecompressPubkey (fst (hex.DecodeString publisher)) = Fail e ->
     publisherToAddress publisher = (zeroAddress, Some ErrPubKey)) /\
  (hex.valid publisher = true ->
   forall pubKey,
     crypto_DecompressPubkey (fst (hex.DecodeString publisher)) = Ok pubKey ->
     publisherToAddress publisher = (crypto_PubkeyToAddress pubKey, None)) /\
  (forall again, again = publisher ->
     publisherToAddress again = publisherToAddress publisher).
Proof.
  pose proof (DecodeString_ok publisher) as Hok.
  repeat split; [| | |intros again ->; reflexivity];
    unfold publisherToAddress;
    destruct (hex.DecodeString publisher) as [publisherBytes err];
    simpl in *.
  - intros Hinvalid. destruct err as [e|]; [reflexivity|].
    rewrite (proj1 Hok eq_refl) in Hinvalid. discriminate.
  - intros Hvalid e Hkey. apply Hok in Hvalid. subst err.
    rewrite Hkey. reflexivity.
  - intros Hvalid pubKey Hkey. apply Hok in Hvalid. subst err.
    rewrite Hkey. reflexivity.
Qed.

(** C7.  One query of one feed.  A lookup error whose text is not "no feed
    updates found" gives [ErrFeedLookup] and [GetContent] is not called.
    After a lookup without error, or with exactly that error, [GetContent]
    is called once: its error gives [ErrFeedContent], and without error
    its content is returned as it is. *)
Theorem getFeedContent_spec (ctx : Context) (handler : GenericHandler)
    (topic : FeedTopic) (user : Address) (w : World) :
  let fd := mkFeed topic user in
  let query := NewQueryLatest fd NoClue in
  let ctx' := context.WithTimeout ctx 100 in
  forall lerr w1, Lookup handler ctx' query w = (lerr, w1) ->
  (forall e, lerr = Some e -> Error e <> "no feed updates found" ->
     getFeedContent ctx handler topic user w
     = (([], Some ErrFeedLookup), w1, [CallLookup ctx' query])) /\
  (lerr = None \/
   (exists e, lerr = Some e /\ Error e = "no feed updates found") ->
   forall addr content gerr w2,
     GetContent handler fd w1 = ((addr, content, gerr), w2) ->
     (gerr <> None ->
        getFeedContent ctx handler topic user w
        = (([], Some ErrFeedContent), w2,
           [CallLookup ctx' query; CallGetContent fd])) /\
     (gerr = None ->
        getFeedContent ctx handler topic user w
        = ((content, None), w2,
           [CallLookup ctx' query; CallGetContent fd]))).
Proof.
  intros fd query ctx' lerr w1 Hlookup.
  unfold getFeedContent, bind, call, ret.
  fold fd; fold query; fold ctx'. rewrite Hlookup.
  split.
  - intros e -> Hmsg. unfold lookupFailed.
    apply String.eqb_neq in Hmsg. rewrite Hmsg. reflexivity.
  - intros Hgo addr content gerr w2 Hcontent.
    assert (lookupFailed lerr = false) as ->.
    { destruct Hgo as [-> | [e [-> Hmsg]]]; [reflexivity|].
      unfold lookupFailed. rewrite Hmsg. reflexivity. }
    rewrite Hcontent. split.
    + intros Hgerr. destruct gerr; [reflexivity | congruence].
    + intros ->. reflexivity.
Qed.

End AddressAndFeed.

(** ** Running a feed query *)

Section FeedQuery.
Context {L : Library}.
Variables (ctx : Context) (handler : GenericHandler).

(** [getFeedContent] as one equation over the two handler calls. *)
Lemma getFeedContent_run (topic : FeedTopic) (user : Address) (w : World) :
  let fd := mkFeed topic user in
  let query := NewQueryLatest fd NoClue in
  let ctx' := context.WithTimeout ctx 100 in
  getFeedContent ctx handler topic user w =
  let '(lerr, w1) := Lookup handler ctx' query w in
  if lookupFailed lerr
  then (([], Some ErrFeedLookup), w1, [CallLookup ctx' query])
  else
    let '((_, content, gerr), w2) := GetContent handler fd w1 in
    (match gerr with
     | Some _ => ([], Some ErrFeedContent)
     | None => (content, None)
     end, w2, [CallLookup ctx' query; CallGetContent fd]).
Proof.
  intros fd query ctx'.
  unfold getFeedContent, bind, call, ret. fold fd; fold query; fold ctx'.
  destruct (Lookup handler ctx' query w) as [lerr w1].
  destruct (lookupFailed lerr); [reflexivity|].
  destruct (GetContent handler fd w1) as [[[addr content] gerr] w2].
  destruct gerr; reflexivity.
Qed.

(** What a run of [getFeedContent] can look like. *)
Lemma getFeedContent_calls (topic : FeedTopic) (user : Address) (w : World)
    (content : bytes) (err : option error) (w1 : World)
    (evs : list Event) :
  let fd := mkFeed topic user in
  let query := NewQueryLatest fd NoClue in
  let ctx' := context.WithTimeout ctx 100 in
  getFeedContent ctx handler topic user w = ((content, err), w1, evs) ->
  (err = Some ErrFeedLookup /\ content = [] /\
   evs = [CallLookup ctx' query]) \/
  ((err = None \/ err = Some ErrFeedContent /\ content = []) /\
   evs = [CallLookup ctx' query; CallGetContent fd]).
Proof.
  intros fd query ctx'. rewrite getFeedContent_run.
  fold fd; fold query; fold ctx'.
  destruct (Lookup handler ctx' query w) as [lerr w0].
  destruct (lookupFailed lerr).
  - intros [= <- <- <- <-]. left. auto.
  - destruct (GetContent handler fd w0) as [[[addr c] gerr] w2].
    destruct gerr; intros [= <- <- <- <-]; right; auto.
Qed.

(** When topic or address cannot be built, the handler is not called. *)
Lemma queryRecoveryFeed_unresolved (topicText publisher : string)
    (topic : FeedTopic) (user : Address) (e : error) (w : World) :
  getFeedTopicAndUser topicText publisher = (topic, user, Some e) ->
  queryRecoveryFeed ctx topicText publisher handler w
  = (([], Some e), w, []).
Proof.
  intros Hres. unfold queryRecoveryFeed. rewrite Hres. reflexivity.
Qed.

(** Otherwise the query is the one [getFeedContent] makes. *)
Lemma queryRecoveryFeed_resolved (topicText publisher : string)
    (topic : FeedTopic) (user : Address) (w : World) :
  getFeedTopicAndUser topicText publisher = (topic, user, None) ->
  queryRecoveryFeed ctx topicText publisher handler w
  = getFeedContent ctx handler topic user w.
Proof.
  intros Hres. unfold queryRecoveryFeed. rewrite Hres.
  unfold bind, ret.
  destruct (getFeedContent ctx handler topic user w)
    as [[[content err] w1] evs] eqn:Hrun.
  apply getFeedContent_calls in Hrun.
  destruct Hrun as [(-> & -> & ->) | [[-> | [-> ->]] ->]]; reflexivity.
Qed.

(** A query that succeeds made exactly the two calls on its feed. *)
Lemma queryRecoveryFeed_ok_calls (topicText publisher : string)
    (w : World) (content : bytes) (w1 : World) (evs : list Event) :
  queryRecoveryFeed ctx topicText publisher handler w
  = ((content, None), w1, evs) ->
  exists topic user,
    getFeedTopicAndUser topicText publisher = (topic, user, None) /\
    evs = [CallLookup (context.WithTimeout ctx 100)
             (NewQueryLatest (mkFeed topic user) NoClue);
           CallGetContent (mkFeed topic user)].
Proof.
  destruct (getFeedTopicAndUser topicText publisher)
    as [[topic user] [e|]] eqn:Hres.
  - rewrite (queryRecoveryFeed_unresolved _ _ w Hres). discriminate.
  - rewrite (queryRecoveryFeed_resolved _ _ w Hres). intros Hrun.
    exists topic, user. split; [reflexivity|].
    apply getFeedContent_calls in Hrun.
    destruct Hrun as [(Habs & _) | [_ ->]]; [discriminate | reflexivity].
Qed.

(** No run of a feed query reaches the sender. *)
Lemma queryRecoveryFeed_no_send (topicText publisher : string)
    (w : World) (r : bytes * option error) (w1 : World)
    (evs : list Event) :
  queryRecoveryFeed ctx topicText publisher handler w = (r, w1, evs) ->
  sends evs = [].
Proof.
  destruct r as [content err].
  destruct (getFeedTopicAndUser topicText publisher)
    as [[topic user] [e|]] eqn:Hres.
  - rewrite (queryRecoveryFeed_unresolved _ _ w Hres).
    intros [= <- <- <- <-]. reflexivity.
  - rewrite (queryRecoveryFeed_resolved _ _ w Hres). intros Hrun.
    apply getFeedContent_calls in Hrun.
    destruct Hrun as [(_ & _ & ->) | [_ ->]]; reflexivity.
Qed.

End FeedQuery.

(** ** Resolving the pinners *)

Section Pinners.
Context {L : Library}.
Variables (ctx : Context) (handler : GenericHandler).

Let publisher : string :=
  fst (assert_string (context.Value ctx (AnyString "publisher"))).

(** [getPinners] over the outcome of its first query. *)
Lemma getPinners_run (fallbackPublisher : string) (w : World) :
  getPinners ctx handler fallbackPublisher w =
  let '((feedContent, err), w1, evs1) :=
    queryRecoveryFeed ctx RecoveryTopicText publisher handler w in
  match err with
  | None => (unmarshalTargets feedContent, w1, evs1)
  | Some _ =>
      if String.eqb fallbackPublisher "" then (([], err), w1, evs1)
      else
        let '(hash, ok) :=
          assert_string (context.Value ctx (AnyString "hash")) in
        if negb ok then (([], Some ErrContextHash), w1, evs1)
        else
          let '((feedContent2, err2), w2, evs2) :=
            queryRecoveryFeed ctx (RecoveryTopicText ++ "_" ++ hash)%string
              fallbackPublisher handler w1 in
          (match err2 with
           | Some _ => ([], err2)
           | None => unmarshalTargets feedContent2
           end, w2, evs1 ++ evs2)
  end.
Proof.
  unfold getPinners, publisher.
  destruct (assert_string (context.Value ctx (AnyString "publisher")))
    as [p okp]; cbn [fst].
  unfold bind at 1.
  destruct (queryRecoveryFeed ctx RecoveryTopicText p handler w)
    as [[[feedContent err] w1] evs1].
  destruct err as [e|]; [|unfold ret; cbv beta iota; rewrite app_nil_r; reflexivity].
  destruct (String.eqb fallbackPublisher "");
    [unfold ret; cbv beta iota; rewrite app_nil_r; reflexivity|].
  destruct (assert_string (context.Value ctx (AnyString "hash")))
    as [hash [|]]; cbn [negb]; cbv beta iota;
    [|unfold ret; cbv beta iota; rewrite app_nil_r; reflexivity].
  unfold bind.
  destruct (queryRecoveryFeed ctx (RecoveryTopicText ++ "_" ++ hash)%string
              fallbackPublisher handler w1)
    as [[[feedContent2 err2] w2] evs2].
  destruct err2; unfold ret; cbv beta iota; rewrite app_nil_r; reflexivity.
Qed.

(** C1.  When the query of the primary feed (topic text "RECOVERY", the
    publisher of the context) succeeds and its content decodes, the
    decoded targets are returned without error, for any fallback
    publisher; the world is the one the primary query left and the only
    calls made are the lookup and the content read on the primary feed. *)
Theorem getPinners_primary_content (fallbackPublisher : string) (w : World)
    (content : bytes) (w1 : World) (evs : list Event) (targets : Targets) :
  queryRecoveryFeed ctx "RECOVERY" publisher handler w
  = ((content, None), w1, evs) ->
  json_Unmarshal content = (targets, None) ->
  getPinners ctx handler fallbackPublisher w = ((targets, None), w1, evs) /\
  exists topic user,
    getFeedTopicAndUser "RECOVERY" publisher = (topic, user, None) /\
    evs = [CallLookup (context.WithTimeout ctx 100)
             (NewQueryLatest (mkFeed topic user) NoClue);
           CallGetContent (mkFeed topic user)].
Proof.
  intros Hprimary Hjson. split.
  - rewrite getPinners_run.
    change RecoveryTopicText with "RECOVERY". rewrite Hprimary.
    unfold unmarshalTargets. rewrite Hjson. reflexivity.
  - exact (queryRecoveryFeed_ok_calls _ _ _ _ _ Hprimary).
Qed.

(** C2.  When the primary query fails and the fallback publisher is the
    empty string, the error of the primary query is returned as it is,
    with no targets, and nothing is called after the primary query. *)
Theorem getPinners_no_fallback (w : World) (content : bytes) (e : error)
    (w1 : World) (evs : list Event) :
  queryRecoveryFeed ctx "RECOVERY" publisher handler w
  = ((content, Some e), w1, evs) ->
  getPinners ctx handler "" w = (([], Some e), w1, evs).
Proof.
  intros Hprimary. rewrite getPinners_run.
  change RecoveryTopicText with "RECOVERY". rewrite Hprimary. reflexivity.
Qed.

(** C3.  When the primary query fails, a fallback publisher is set and the
    context holds no string under "hash", the result is [ErrContextHash]
    and nothing is called after the primary query. *)
Theorem getPinners_missing_hash (fallbackPublisher : string) (w : World)
    (content : bytes) (e : error) (w1 : World) (evs : list Event) :
  (forall h, context.Value ctx (AnyString "hash") <> Some (AnyString h)) ->
  fallbackPublisher <> "" ->
  queryRecoveryFeed ctx "RECOVERY" publisher handler w
  = ((content, Some e), w1, evs) ->
  getPinners ctx handler fallbackPublisher w
  = (([], Some ErrContextHash), w1, evs).
Proof.
  intros Hhash Hfb Hprimary. rewrite getPinners_run.
  change RecoveryTopicText with "RECOVERY". rewrite Hprimary.
  apply String.eqb_neq in Hfb. rewrite Hfb.
  destruct (context.Value ctx (AnyString "hash")) as [[h|n|b]|];
    try reflexivity.
  exfalso. exact (Hhash h eq_refl).
Qed.

(** C4.  When the primary query fails, a fallback publisher is set and the
    context holds the string [h] under "hash", the rest of [getPinners] is
    one query with topic text "RECOVERY_" followed by [h] and the fallback
    publisher, run in the world the primary query left.  An error of that
    query is returned as it is and nothing is tried after it; without
    error its content is decoded.  The calls of that query are none when
    topic or address cannot be built, and otherwise one lookup on the feed
    of that topic and that address, followed by at most one content read
    on the same feed. *)
Theorem getPinners_fallback (fallbackPublisher h : string) (w : World)
    (content : bytes) (e : error) (w1 : World) (evs1 : list Event)
    (content2 : bytes) (err2 : option error) (w2 : World)
    (evs2 : list Event) :
  context.Value ctx (AnyString "hash") = Some (AnyString h) ->
  fallbackPublisher <> "" ->
  queryRecoveryFeed ctx "RECOVERY" publisher handler w
  = ((content, Some e), w1, evs1) ->
  queryRecoveryFeed ctx ("RECOVERY_" ++ h)%string fallbackPublisher
    handler w1
  = ((content2, err2), w2, evs2) ->
  (forall e2, err2 = Some e2 ->
     getPinners ctx handler fallbackPublisher w
     = (([], Some e2), w2, evs1 ++ evs2)) /\
  (err2 = None ->
     getPinners ctx handler fallbackPublisher w
     = (unmarshalTargets content2, w2, evs1 ++ evs2)) /\
  (forall topic user e2,
     getFeedTopicAndUser ("RECOVERY_" ++ h)%string fallbackPublisher
     = (topic, user, Some e2) ->
     err2 = Some e2 /\ w2 = w1 /\ evs2 = []) /\
  (forall topic user,
     getFeedTopicAndUser ("RECOVERY_" ++ h)%string fallbackPublisher
     = (topic, user, None) ->
     let fd := mkFeed topic user in
     let lookup := CallLookup (context.WithTimeout ctx 100)
                     (NewQueryLatest fd NoClue) in
     (evs2 = [lookup] /\ err2 = Some ErrFeedLookup) \/
     (evs2 = [lookup; CallGetContent fd] /\
      (err2 = None \/ err2 = Some ErrFeedContent))).
Proof.
  intros Hhash Hfb Hprimary Hfallback.
  apply String.eqb_neq in Hfb.
  assert (forall r,
            r = match err2 with
                | Some _ => ([], err2)
                | None => unmarshalTargets content2
                end ->
            getPinners ctx handler fallbackPublisher w
            = (r, w2, evs1 ++ evs2)) as Hrun.
  { intros r ->. rewrite getPinners_run.
    change RecoveryTopicText with "RECOVERY". rewrite Hprimary, Hfb, Hhash.
    cbn [assert_string negb]. cbv beta iota.
    change ("RECOVERY" ++ "_" ++ h)%string with ("RECOVERY_" ++ h)%string.
    rewrite Hfallback. reflexivity. }
  split; [|split; [|split]].
  - intros e2 ->. apply Hrun. reflexivity.
  - intros ->. apply Hrun. reflexivity.
  - intros topic user e2 Hres.
    rewrite (queryRecoveryFeed_unresolved ctx handler _ _ w1 Hres)
      in Hfallback.
    injection Hfallback as <- <- <- <-. auto.
  - intros topic user Hres fd lookup.
    rewrite (queryRecoveryFeed_resolved ctx handler _ _ w1 Hres)
      in Hfallback.
    apply getFeedContent_calls in Hfallback.
    destruct Hfallback as [(-> & _ & ->) | [[-> | [-> _]] ->]]; auto.
Qed.

(** C5, as amended.  Content that was fetched and on which
    [json.Unmarshal] returns an error gives [ErrTargets] and no targets.
    For content of the primary feed this holds for any fallback publisher
    and any context, and nothing is called after the primary query; for
    content of the fallback feed nothing is called after the fallback
    query. *)
Theorem getPinners_decode_error (fallbackPublisher : string) (w : World) :
  (forall content w1 evs,
     queryRecoveryFeed ctx "RECOVERY" publisher handler w
     = ((content, None), w1, evs) ->
     snd (json_Unmarshal content) <> None ->
     getPinners ctx handler fallbackPublisher w
     = (([], Some ErrTargets), w1, evs)) /\
  (forall h content e w1 evs1 content2 w2 evs2,
     context.Value ctx (AnyString "hash") = Some (AnyString h) ->
     fallbackPublisher <> "" ->
     queryRecoveryFeed ctx "RECOVERY" publisher handler w
     = ((content, Some e), w1, evs1) ->
     queryRecoveryFeed ctx ("RECOVERY_" ++ h)%string fallbackPublisher
       handler w1
     = ((content2, None), w2, evs2) ->
     snd (json_Unmarshal content2) <> None ->
     getPinners ctx handler fallbackPublisher w
     = (([], Some ErrTargets), w2, evs1 ++ evs2)).
Proof.
  assert (forall c, snd (json_Unmarshal c) <> None ->
                    unmarshalTargets c = ([], Some ErrTargets)) as Hbad.
  { intros c Hc. unfold unmarshalTargets.
    destruct (json_Unmarshal c) as [targets [e|]]; [reflexivity|].
    exfalso. apply Hc. reflexivity. }
  split.
  - intros content w1 evs Hprimary Hjson. rewrite getPinners_run.
    change RecoveryTopicText with "RECOVERY". rewrite Hprimary.
    rewrite (Hbad _ Hjson). reflexivity.
  - intros h content e w1 evs1 content2 w2 evs2
      Hhash Hfb Hprimary Hfallback Hjson.
    apply String.eqb_neq in Hfb. rewrite getPinners_run.
    change RecoveryTopicText with "RECOVERY". rewrite Hprimary, Hfb, Hhash.
    cbn [assert_string negb]. cbv beta iota.
    change ("RECOVERY" ++ "_" ++ h)%string with ("RECOVERY_" ++ h)%string.
    rewrite Hfallback, (Hbad _ Hjson). reflexivity.
Qed.

(** C10.  When the context holds no string under "publisher", the primary
    query runs with the empty publisher.  The empty string is valid
    hexadecimal and decodes to no bytes, so, provided the topic of
    "RECOVERY" can be built and the curve rejects the empty byte string,
    address resolution fails with [ErrPubKey], the handler is never
    called, and without a fallback publisher [getPinners] returns
    [ErrPubKey]. *)
Theorem getPinners_no_publisher (w : World) :
  (forall p, context.Value ctx (AnyString "publisher")
             <> Some (AnyString p)) ->
  snd (feed_NewTopic "RECOVERY" []) = None ->
  (exists e, crypto_DecompressPubkey [] = Fail e) ->
  publisher = "" /\
  hex.DecodeString "" = ([], None) /\
  publisherToAddress "" = (zeroAddress, Some ErrPubKey) /\
  queryRecoveryFeed ctx "RECOVERY" "" handler w
  = (([], Some ErrPubKey), w, []) /\
  getPinners ctx handler "" w = (([], Some ErrPubKey), w, []).
Proof.
  intros Hpub Htopic [e Hkey].
  assert (publisher = "") as Hempty.
  { unfold publisher.
    destruct (context.Value ctx (AnyString "publisher")) as [[p|n|b]|];
      try reflexivity.
    exfalso. exact (Hpub p eq_refl). }
  assert (publisherToAddress "" = (zeroAddress, Some ErrPubKey)) as Haddr.
  { unfold publisherToAddress. rewrite DecodeString_empty, Hkey.
    reflexivity. }
  assert (queryRecoveryFeed ctx "RECOVERY" "" handler w
          = (([], Some ErrPubKey), w, [])) as Hquery.
  { apply (queryRecoveryFeed_unresolved ctx handler "RECOVERY" "" w
             (topic := zeroTopic) (user := zeroAddress)).
    unfold getFeedTopicAndUser.
    destruct (feed_NewTopic "RECOVERY" []) as [topic terr].
    simpl in Htopic. subst terr. rewrite Haddr. reflexivity. }
  repeat split; auto using DecodeString_empty.
  rewrite getPinners_run. change RecoveryTopicText with "RECOVERY".
  rewrite Hempty, Hquery. reflexivity.
Qed.

End Pinners.

(** ** The recovery hook and the repair handler *)

Section Hooks.
Context {L : Library}.

(** Keep only what an equation between runs says about the calls. *)
Ltac events_of H := apply (f_equal snd) in H; cbn [snd] in H; subst.

(** Resolving the pinners never reaches the sender. *)
Lemma getPinners_no_send (ctx : Context) (handler : GenericHandler)
    (fallbackPublisher : string) (w : World)
    (r : Targets * option error) (w1 : World) (evs : list Event) :
  getPinners ctx handler fallbackPublisher w = (r, w1, evs) ->
  sends evs = [].
Proof.
  rewrite getPinners_run.
  destruct (queryRecoveryFeed ctx RecoveryTopicText
              (fst (assert_string (context.Value ctx (AnyString "publisher"))))
              handler w)
    as [[[feedContent err] w0] evs1] eqn:Hprimary.
  apply queryRecoveryFeed_no_send in Hprimary.
  destruct err as [e|]; [|intros Hrun; events_of Hrun; exact Hprimary].
  destruct (String.eqb fallbackPublisher "");
    [intros Hrun; events_of Hrun; exact Hprimary|].
  destruct (assert_string (context.Value ctx (AnyString "hash")))
    as [hash [|]]; cbn [negb]; cbv beta iota;
    [|intros Hrun; events_of Hrun; exact Hprimary].
  destruct (queryRecoveryFeed ctx (RecoveryTopicText ++ "_" ++ hash)%string
              fallbackPublisher handler w0)
    as [[[feedContent2 err2] w2] evs2] eqn:Hfallback.
  apply queryRecoveryFeed_no_send in Hfallback.
  intros Hrun; events_of Hrun. unfold sends in *.
  rewrite filter_app, Hprimary, Hfallback. reflexivity.
Qed.

(** C8.  The hook returns an error of pinner resolution as it is and then
    the sender is not called.  After a successful resolution the sender is
    called exactly once, with the context, the resolved targets, the
    recovery topic and the chunk address as payload; the hook returns the
    error of the sender as it is (nil when there is none) and drops the
    monitor. *)
Theorem NewRecoveryHook_spec (send : sender) (handler : GenericHandler)
    (fallbackPublisher : string) (ctx : Context)
    (chunkAddress : ChunkAddress) (w : World)
    (targets : Targets) (err : option error) (w1 : World)
    (evs : list Event) :
  getPinners ctx handler fallbackPublisher w = ((targets, err), w1, evs) ->
  (forall e, err = Some e ->
     NewRecoveryHook send handler fallbackPublisher ctx chunkAddress w
     = (Some e, w1, evs) /\
     sends evs = []) /\
  (err = None ->
   forall monitor serr w2,
     send ctx targets RecoveryTopic chunkAddress w1
     = ((monitor, serr), w2) ->
     let sent := CallSend ctx targets (trojan_NewTopic "RECOVERY")
                   chunkAddress in
     NewRecoveryHook send handler fallbackPublisher ctx chunkAddress w
     = (serr, w2, evs ++ [sent]) /\
     sends (evs ++ [sent]) = [sent]).
Proof.
  intros Hpinners. pose proof (getPinners_no_send _ _ _ _ Hpinners) as Hquiet.
  unfold NewRecoveryHook, bind. rewrite Hpinners. split.
  - intros e ->. unfold ret. rewrite app_nil_r. auto.
  - intros -> monitor serr w2 Hsend.
    unfold call. rewrite Hsend. split.
    + destruct serr; unfold ret; cbv beta iota; rewrite app_nil_r;
        reflexivity.
    + unfold sends in *. rewrite filter_app, Hquiet. reflexivity.
Qed.

(** C9.  The repair handler makes exactly one call of the store: [Set]
    with the background context, the re-upload mode and the payload of the
    message as the one address.  Run twice on the same message it makes
    that call twice.  Its result is the unit value, and what [Set] returns
    as error has no influence on it: a store that leaves the same world
    behind gives the same run, whatever errors it reports. *)
Theorem NewRepairHandler_spec (s : ValidatorStore) (m : Message)
    (w : World) :
  let request :=
    CallSet context.Background ModeSetReUpload [Payload m] in
  let set := Set_ s context.Background ModeSetReUpload [Payload m] in
  NewRepairHandler s m w = (tt, snd (set w), [request]) /\
  (_ <- NewRepairHandler s m ;; NewRepairHandler s m) w
  = (tt, snd (set (snd (set w))), [request; request]) /\
  (forall s' : ValidatorStore,
     (forall w0,
        snd (Set_ s' context.Background ModeSetReUpload [Payload m] w0)
        = snd (set w0)) ->
     NewRepairHandler s' m w = NewRepairHandler s m w).
Proof.
  intros request set.
  assert (forall (s0 : ValidatorStore) w0,
            NewRepairHandler s0 m w0
            = (tt,
               snd (Set_ s0 context.Background ModeSetReUpload [Payload m] w0),
               [request])) as Hone.
  { intros s0 w0. unfold NewRepairHandler, bind, call, ret.
    fold request.
    destruct (Set_ s0 context.Background ModeSetReUpload [Payload m] w0)
      as [serr w1].
    reflexivity. }
  split; [apply Hone|]. split.
  - unfold bind. rewrite (Hone s w). cbv beta iota.
    rewrite (Hone s). reflexivity.
  - intros s' Hsame. rewrite (Hone s' w), (Hone s w), Hsame. reflexivity.
Qed.

End Hooks.

(** ** The properties at work on the node *)

Lemma publisherToAddress_spec_run :
  publisherToAddress (L := Node.library) "0g"
  = (zeroAddress, Some ErrPublisher) /\
  publisherToAddress (L := Node.library) Node.off_curve
  = (zeroAddress, Some ErrPubKey) /\
  exists pubKey,
    publisherToAddress (L := Node.library) Node.alice
    = (Node.PubkeyToAddress pubKey, None).
Proof.
  split; [|split].
  - apply (proj1 (publisherToAddress_spec (L := Node.library) "0g")).
    reflexivity.
  - eapply (proj1 (proj2
              (publisherToAddress_spec (L := Node.library) Node.off_curve)));
      [reflexivity | vm_compute; reflexivity].
  - eexists.
    eapply (proj1 (proj2 (proj2
              (publisherToAddress_spec (L := Node.library) Node.alice))));
      [reflexivity | vm_compute; reflexivity].
Defined.

Lemma getFeedContent_spec_run :
  (* the deadline has passed: the lookup fails for good *)
  getFeedContent Node.ctx_expired Node.handler
    (Topic Node.recovery_feed) (User Node.recovery_feed) Node.w_primary
  = (([], Some ErrFeedLookup), Node.w_primary,
     [CallLookup (context.WithTimeout Node.ctx_expired 100)
        (NewQueryLatest Node.recovery_feed NoClue)]) /\
  (* no update recorded, content there *)
  getFeedContent Node.ctx_alice Node.handler
    (Topic Node.recovery_feed) (User Node.recovery_feed) Node.w_unrecorded
  = ((Node.one_target, None), Node.w_unrecorded,
     Node.calls_on Node.ctx_alice Node.recovery_feed) /\
  (* update recorded, content gone *)
  getFeedContent Node.ctx_alice Node.handler
    (Topic Node.recovery_feed) (User Node.recovery_feed) Node.w_stale
  = (([], Some ErrFeedContent), Node.w_stale,
     Node.calls_on Node.ctx_alice Node.recovery_feed) /\
  (* update recorded, content there *)
  getFeedContent Node.ctx_alice Node.handler
    (Topic Node.recovery_feed) (User Node.recovery_feed) Node.w_primary
  = ((Node.one_target, None), Node.w_primary,
     Node.calls_on Node.ctx_alice Node.recovery_feed).
Proof.
  pose (topic := Topic Node.recovery_feed).
  pose (user := User Node.recovery_feed).
  pose (fd := mkFeed topic user).
  pose (query := NewQueryLatest (L := Node.library) fd NoClue).
  split; [|split; [|split]].
  - assert (Lookup Node.handler (context.WithTimeout Node.ctx_expired 100)
              query Node.w_primary
            = (Some (ForeignError 20 "context deadline exceeded"),
               Node.w_primary)) as Hlookup by (vm_compute; reflexivity).
    refine (proj1 (@getFeedContent_spec Node.library Node.ctx_expired
                     Node.handler topic user Node.w_primary _ _ Hlookup)
              _ eq_refl _).
    cbn. discriminate.
  - pose (w := Node.w_unrecorded).
    assert (Lookup Node.handler (context.WithTimeout Node.ctx_alice 100)
              query w
            = (Some (ForeignError 21 "no feed updates found"), w))
      as Hlookup by (vm_compute; reflexivity).
    assert (GetContent Node.handler fd w = (([], Node.one_target, None), w))
      as Hcontent by (vm_compute; reflexivity).
    refine (proj2 (proj2 (@getFeedContent_spec Node.library Node.ctx_alice
                            Node.handler topic user w _ _ Hlookup)
                     _ _ _ _ _ Hcontent) eq_refl).
    right. eexists. split; reflexivity.
  - assert (Lookup Node.handler (context.WithTimeout Node.ctx_alice 100)
              query Node.w_stale = (None, Node.w_stale))
      as Hlookup by (vm_compute; reflexivity).
    assert (GetContent Node.handler fd Node.w_stale
            = (([], [], Some (ForeignError 22 "content not found")),
               Node.w_stale))
      as Hcontent by (vm_compute; reflexivity).
    refine (proj1 (proj2 (@getFeedContent_spec Node.library Node.ctx_alice
                            Node.handler topic user Node.w_stale _ _ Hlookup)
                     (or_introl eq_refl) _ _ _ _ Hcontent) _).
    discriminate.
  - assert (Lookup Node.handler (context.WithTimeout Node.ctx_alice 100)
              query Node.w_primary = (None, Node.w_primary))
      as Hlookup by (vm_compute; reflexivity).
    assert (GetContent Node.handler fd Node.w_primary
            = (([], Node.one_target, None), Node.w_primary))
      as Hcontent by (vm_compute; reflexivity).
    exact (proj2 (proj2 (@getFeedContent_spec Node.library Node.ctx_alice
                           Node.handler topic user Node.w_primary _ _ Hlookup)
                    (or_introl eq_refl) _ _ _ _ Hcontent) eq_refl).
Defined.

(** The primary feed of [alice] has content: it is used, whatever the
    fallback publisher. *)
Lemma getPinners_primary_content_run :
  getPinners Node.ctx_alice Node.handler Node.bob Node.w_primary
  = (([[x01; x02; x03]], None), Node.w_primary,
     Node.calls_on Node.ctx_alice Node.recovery_feed).
Proof.
  assert (queryRecoveryFeed Node.ctx_alice "RECOVERY"
            (fst (assert_string
                    (context.Value Node.ctx_alice (AnyString "publisher"))))
            Node.handler Node.w_primary
          = ((Node.one_target, None), Node.w_primary,
             Node.calls_on Node.ctx_alice Node.recovery_feed))
    as Hprimary by reflexivity.
  assert (@json_Unmarshal Node.library Node.one_target
          = ([[x01; x02; x03]], None))
    as Hjson by reflexivity.
  exact (proj1 (@getPinners_primary_content Node.library Node.ctx_alice
                  Node.handler Node.bob Node.w_primary _ _ _ _
                  Hprimary Hjson)).
Defined.

(** Nothing is published and there is no fallback publisher. *)
Lemma getPinners_no_fallback_run :
  getPinners Node.ctx_alice Node.handler "" Node.empty_world
  = (([], Some ErrFeedContent), Node.empty_world,
     Node.calls_on Node.ctx_alice Node.recovery_feed).
Proof.
  assert (queryRecoveryFeed Node.ctx_alice "RECOVERY"
            (fst (assert_string
                    (context.Value Node.ctx_alice (AnyString "publisher"))))
            Node.handler Node.empty_world
          = (([], Some ErrFeedContent), Node.empty_world,
             Node.calls_on Node.ctx_alice Node.recovery_feed))
    as Hprimary by reflexivity.
  exact (@getPinners_no_fallback Node.library Node.ctx_alice Node.handler
           Node.empty_world _ _ _ _ Hprimary).
Defined.

(** Nothing is published, [bob] is the fallback publisher, and the context
    names no hash. *)
Lemma getPinners_missing_hash_run :
  getPinners Node.ctx_alice Node.handler Node.bob Node.empty_world
  = (([], Some ErrContextHash), Node.empty_world,
     Node.calls_on Node.ctx_alice Node.recovery_feed).
Proof.
  assert (queryRecoveryFeed Node.ctx_alice "RECOVERY"
            (fst (assert_string
                    (context.Value Node.ctx_alice (AnyString "publisher"))))
            Node.handler Node.empty_world
          = (([], Some ErrFeedContent), Node.empty_world,
             Node.calls_on Node.ctx_alice Node.recovery_feed))
    as Hprimary by reflexivity.
  refine (@getPinners_missing_hash Node.library Node.ctx_alice Node.handler
            Node.bob Node.empty_world _ _ _ _ _ _ Hprimary).
  - intros h. vm_compute. discriminate.
  - vm_compute. discriminate.
Defined.

(** Only the fallback feed of [bob] for the hash "abc123" has content; and
    a fallback publisher that is not hexadecimal. *)
Lemma getPinners_fallback_run :
  Topic Node.fallback_feed
  = Node.pad_to 32 (bytes_of_string "RECOVERY_abc123") /\
  getPinners Node.ctx_alice_hash Node.handler Node.bob Node.w_fallback
  = (([[x01; x02; x03]], None), Node.w_fallback,
     Node.calls_on Node.ctx_alice_hash Node.recovery_feed
     ++ Node.calls_on Node.ctx_alice_hash Node.fallback_feed) /\
  getPinners Node.ctx_alice_hash Node.handler "zz" Node.w_fallback
  = (([], Some ErrPublisher), Node.w_fallback,
     Node.calls_on Node.ctx_alice_hash Node.recovery_feed ++ []).
Proof.
  assert (context.Value Node.ctx_alice_hash (AnyString "hash")
          = Some (AnyString "abc123")) as Hhash by reflexivity.
  assert (queryRecoveryFeed Node.ctx_alice_hash "RECOVERY"
            (fst (assert_string
                    (context.Value Node.ctx_alice_hash
                       (AnyString "publisher"))))
            Node.handler Node.w_fallback
          = (([], Some ErrFeedContent), Node.w_fallback,
             Node.calls_on Node.ctx_alice_hash Node.recovery_feed))
    as Hprimary by reflexivity.
  split; [reflexivity|]. split.
  - assert (queryRecoveryFeed Node.ctx_alice_hash "RECOVERY_abc123" Node.bob
              Node.handler Node.w_fallback
            = ((Node.one_target, None), Node.w_fallback,
               Node.calls_on Node.ctx_alice_hash Node.fallback_feed))
      as Hfallback by reflexivity.
    assert (Node.bob <> "") as Hfb by (vm_compute; discriminate).
    refine (eq_trans
              (proj1 (proj2 (@getPinners_fallback Node.library
                               Node.ctx_alice_hash Node.handler Node.bob
                               "abc123" Node.w_fallback _ _ _ _ _ _ _ _
                               Hhash Hfb Hprimary Hfallback)) eq_refl) _).
    reflexivity.
  - assert (queryRecoveryFeed Node.ctx_alice_hash "RECOVERY_abc123" "zz"
              Node.handler Node.w_fallback
            = (([], Some ErrPublisher), Node.w_fallback, []))
      as Hfallback by reflexivity.
    assert ("zz" <> "") as Hfb by discriminate.
    exact (proj1 (@getPinners_fallback Node.library
                    Node.ctx_alice_hash Node.handler "zz"
                    "abc123" Node.w_fallback _ _ _ _ _ _ _ _
                    Hhash Hfb Hprimary Hfallback) _ eq_refl).
Defined.

(** Content that is not an array, on the primary feed and on the fallback
    feed. *)
Lemma getPinners_decode_error_run :
  getPinners Node.ctx_alice_hash Node.handler Node.bob Node.w_garbled
  = (([], Some ErrTargets), Node.w_garbled,
     Node.calls_on Node.ctx_alice_hash Node.recovery_feed) /\
  getPinners Node.ctx_alice_hash Node.handler Node.bob
    Node.w_garbled_fallback
  = (([], Some ErrTargets), Node.w_garbled_fallback,
     Node.calls_on Node.ctx_alice_hash Node.recovery_feed
     ++ Node.calls_on Node.ctx_alice_hash Node.fallback_feed).
Proof.
  assert (snd (@json_Unmarshal Node.library Node.garbled) <> None)
    as Hjson by (vm_compute; discriminate).
  split.
  - assert (queryRecoveryFeed Node.ctx_alice_hash "RECOVERY"
              (fst (assert_string
                      (context.Value Node.ctx_alice_hash
                         (AnyString "publisher"))))
              Node.handler Node.w_garbled
            = ((Node.garbled, None), Node.w_garbled,
               Node.calls_on Node.ctx_alice_hash Node.recovery_feed))
      as Hprimary by reflexivity.
    exact (proj1 (@getPinners_decode_error Node.library Node.ctx_alice_hash
                    Node.handler Node.bob Node.w_garbled)
             _ _ _ Hprimary Hjson).
  - assert (context.Value Node.ctx_alice_hash (AnyString "hash")
            = Some (AnyString "abc123")) as Hhash by reflexivity.
    assert (Node.bob <> "") as Hfb by (vm_compute; discriminate).
    assert (queryRecoveryFeed Node.ctx_alice_hash "RECOVERY"
              (fst (assert_string
                      (context.Value Node.ctx_alice_hash
                         (AnyString "publisher"))))
              Node.handler Node.w_garbled_fallback
            = (([], Some ErrFeedContent), Node.w_garbled_fallback,
               Node.calls_on Node.ctx_alice_hash Node.recovery_feed))
      as Hprimary by reflexivity.
    assert (queryRecoveryFeed Node.ctx_alice_hash "RECOVERY_abc123" Node.bob
              Node.handler Node.w_garbled_fallback
            = ((Node.garbled, None), Node.w_garbled_fallback,
               Node.calls_on Node.ctx_alice_hash Node.fallback_feed))
      as Hfallback by reflexivity.
    exact (proj2 (@getPinners_decode_error Node.library Node.ctx_alice_hash
                    Node.handler Node.bob Node.w_garbled_fallback)
             _ _ _ _ _ _ _ _ Hhash Hfb Hprimary Hfallback Hjson).
Defined.

(** C5 as it was stated fails on the document null: it is no JSON array,
    [encoding/json] takes it without error, and [getPinners] returns nil
    targets and a nil error where the claim expects [ErrTargets]; the
    fallback publisher and the hash of the context change nothing. *)
Lemma getPinners_null_content :
  json.is_array Node.null_content = false /\
  queryRecoveryFeed Node.ctx_alice_hash "RECOVERY"
    (fst (assert_string
            (context.Value Node.ctx_alice_hash (AnyString "publisher"))))
    Node.go_handler Node.w_null
  = ((Node.null_content, None), Node.w_null,
     Node.go_calls_on Node.ctx_alice_hash Node.recovery_feed) /\
  getPinners Node.ctx_alice_hash Node.go_handler Node.bob Node.w_null
  = (([], None), Node.w_null,
     Node.go_calls_on Node.ctx_alice_hash Node.recovery_feed) /\
  getPinners Node.ctx_alice_hash Node.go_handler Node.bob Node.w_null
  <> (([], Some ErrTargets), Node.w_null,
      Node.go_calls_on Node.ctx_alice_hash Node.recovery_feed).
Proof.
  assert (getPinners Node.ctx_alice_hash Node.go_handler Node.bob Node.w_null
          = (([], None), Node.w_null,
             Node.go_calls_on Node.ctx_alice_hash Node.recovery_feed))
    as Hrun by reflexivity.
  split; [reflexivity|]. split; [reflexivity|]. split; [exact Hrun|].
  rewrite Hrun. discriminate.
Qed.

(** A context whose "publisher" is a number, and no fallback publisher. *)
Lemma getPinners_no_publisher_run :
  getPinners Node.ctx_number Node.handler "" Node.w_primary
  = (([], Some ErrPubKey), Node.w_primary, []).
Proof.
  refine (proj2 (proj2 (proj2 (proj2
            (@getPinners_no_publisher Node.library Node.ctx_number
               Node.handler Node.w_primary _ _ _))))).
  - intros p. vm_compute. discriminate.
  - reflexivity.
  - eexists. reflexivity.
Defined.

(** The hook on a node whose primary feed has content, on a node where
    nothing is published, and with a payload the sender refuses. *)
Lemma NewRecoveryHook_spec_run :
  NewRecoveryHook Node.send Node.handler Node.bob Node.ctx_alice
    Node.chunk_address Node.w_primary
  = (None, Node.w_sent,
     Node.calls_on Node.ctx_alice Node.recovery_feed
     ++ [Node.sent Node.chunk_address]) /\
  NewRecoveryHook Node.send Node.handler "" Node.ctx_alice
    Node.chunk_address Node.empty_world
  = (Some ErrFeedContent, Node.empty_world,
     Node.calls_on Node.ctx_alice Node.recovery_feed) /\
  NewRecoveryHook Node.send Node.handler Node.bob Node.ctx_alice
    [] Node.w_primary
  = (Some (ForeignError 30 "empty payload"), Node.w_primary,
     Node.calls_on Node.ctx_alice Node.recovery_feed ++ [Node.sent []]).
Proof.
  assert (getPinners Node.ctx_alice Node.handler Node.bob Node.w_primary
          = (([[x01; x02; x03]], None), Node.w_primary,
             Node.calls_on Node.ctx_alice Node.recovery_feed))
    as Hfound by reflexivity.
  assert (getPinners Node.ctx_alice Node.handler "" Node.empty_world
          = (([], Some ErrFeedContent), Node.empty_world,
             Node.calls_on Node.ctx_alice Node.recovery_feed))
    as Hnone by reflexivity.
  split; [|split].
  - assert (Node.send Node.ctx_alice [[x01; x02; x03]]
              (@RecoveryTopic Node.library)
              Node.chunk_address Node.w_primary
            = ((Some tt, None), Node.w_sent))
      as Hsend by (vm_compute; reflexivity).
    exact (proj1 (proj2 (@NewRecoveryHook_spec Node.library Node.send
                           Node.handler Node.bob Node.ctx_alice
                           Node.chunk_address Node.w_primary _ _ _ _ Hfound)
                    eq_refl _ _ _ Hsend)).
  - exact (proj1 (proj1 (@NewRecoveryHook_spec Node.library Node.send
                           Node.handler "" Node.ctx_alice
                           Node.chunk_address Node.empty_world _ _ _ _ Hnone)
                    _ eq_refl)).
  - assert (Node.send Node.ctx_alice [[x01; x02; x03]]
              (@RecoveryTopic Node.library)
              [] Node.w_primary
            = ((None, Some (ForeignError 30 "empty payload")),
               Node.w_primary)) as Hsend by (vm_compute; reflexivity).
    exact (proj1 (proj2 (@NewRecoveryHook_spec Node.library Node.send
                           Node.handler Node.bob Node.ctx_alice
                           [] Node.w_primary _ _ _ _ Hfound)
                    eq_refl _ _ _ Hsend)).
Defined.

(** The repair handler on a chunk address the store takes and on a payload
    the store refuses: one request each time, and nothing comes back; a
    store that reports no error at all gives the same run. *)
Lemma NewRepairHandler_spec_run :
  NewRepairHandler Node.store (Node.recovery_message Node.chunk_address)
    Node.empty_world
  = (tt, Node.w_reuploaded,
     [CallSet context.Background (@ModeSetReUpload Node.library)
        [Node.chunk_address]]) /\
  NewRepairHandler Node.store (Node.recovery_message [x01]) Node.empty_world
  = (tt, Node.empty_world,
     [CallSet context.Background (@ModeSetReUpload Node.library) [[x01]]]) /\
  fst (Set_ Node.store context.Background ModeSetReUpload [[x01]]
         Node.empty_world)
  = Some (ForeignError 40 "invalid chunk") /\
  NewRepairHandler Node.silent_store (Node.recovery_message [x01])
    Node.empty_world
  = NewRepairHandler Node.store (Node.recovery_message [x01])
      Node.empty_world.
Proof.
  split; [|split; [|split]].
  - exact (proj1 (@NewRepairHandler_spec Node.library Node.store
                    (Node.recovery_message Node.chunk_address)
                    Node.empty_world)).
  - exact (proj1 (@NewRepairHandler_spec Node.library Node.store
                    (Node.recovery_message [x01]) Node.empty_world)).
  - reflexivity.
  - apply (proj2 (proj2 (@NewRepairHandler_spec Node.library Node.store
                           (Node.recovery_message [x01]) Node.empty_world))).
    intros w0. reflexivity.
Defined.

(** * Further properties of the package *)

(** ** What a feed query can return and do *)

Section QueryOutcomes.
Context {L : Library}.
Variables (ctx : Context) (handler : GenericHandler).

Lemma publisherToAddress_failure (publisher : string) (user : Address)
    (e : error) :
  publisherToAddress publisher = (user, Some e) ->
  user = zeroAddress /\ (e = ErrPublisher \/ e = ErrPubKey).
Proof.
  unfold publisherToAddress.
  destruct (hex.DecodeString publisher) as [publisherBytes [herr|]].
  - intros [= <- <-]. auto.
  - destruct (crypto_DecompressPubkey publisherBytes) as [pubKey|kerr];
      [discriminate|].
    intros [= <- <-]. auto.
Qed.

(** The ways [getFeedTopicAndUser] fails: on the topic first, then on the
    publisher; either way topic and user are the zero values. *)
Lemma getFeedTopicAndUser_failure (topicText publisher : string)
    (topic : FeedTopic) (user : Address) (e : error) :
  getFeedTopicAndUser topicText publisher = (topic, user, Some e) ->
  topic = zeroTopic /\ user = zeroAddress /\
  (snd (feed_NewTopic topicText []) = Some e \/
   snd (feed_NewTopic topicText []) = None /\
   (e = ErrPublisher \/ e = ErrPubKey)).
Proof.
  unfold getFeedTopicAndUser.
  destruct (feed_NewTopic topicText []) as [t [terr|]]; cbn [snd].
  - intros [= <- <- <-]. auto.
  - destruct (publisherToAddress publisher) as [u [perr|]] eqn:Haddr;
      [|discriminate].
    intros [= <- <- <-].
    apply publisherToAddress_failure in Haddr. destruct Haddr as [_ Hkind].
    auto.
Qed.

Lemma getFeedTopicAndUser_success (topicText publisher : string)
    (topic : FeedTopic) (user : Address) :
  getFeedTopicAndUser topicText publisher = (topic, user, None) ->
  feed_NewTopic topicText [] = (topic, None) /\
  publisherToAddress publisher = (user, None).
Proof.
  unfold getFeedTopicAndUser.
  destruct (feed_NewTopic topicText []) as [t [terr|]]; [discriminate|].
  destruct (publisherToAddress publisher) as [u [perr|]]; [discriminate|].
  intros [= <- <-]. auto.
Qed.

Lemma queryRecoveryFeed_failure (topicText publisher : string) (w : World)
    (content : bytes) (e : error) (w1 : World) (evs : list Event) :
  queryRecoveryFeed ctx topicText publisher handler w
  = ((content, Some e), w1, evs) ->
  content = [] /\
  (snd (feed_NewTopic topicText []) = Some e /\ w1 = w /\ evs = [] \/
   snd (feed_NewTopic topicText []) = None /\
   ((e = ErrPublisher \/ e = ErrPubKey) /\ w1 = w /\ evs = [] \/
    (e = ErrFeedLookup \/ e = ErrFeedContent) /\ evs <> [])).
Proof.
  destruct (getFeedTopicAndUser topicText publisher)
    as [[topic user] [e0|]] eqn:Hres.
  - rewrite (queryRecoveryFeed_unresolved ctx handler _ _ w Hres).
    intros [= <- <- <- <-].
    apply getFeedTopicAndUser_failure in Hres.
    split; [reflexivity|].
    destruct Hres as (_ & _ & [Htopic | [Htopic Hkind]]);
      [left | right; split; [exact Htopic | left]]; auto.
  - rewrite (queryRecoveryFeed_resolved ctx handler _ _ w Hres).
    intros Hrun.
    apply getFeedTopicAndUser_success in Hres. destruct Hres as [Htopic _].
    apply getFeedContent_calls in Hrun.
    destruct Hrun as [(He & -> & ->) | [[He | [He ->]] ->]];
      try discriminate; injection He as <-; rewrite Htopic; cbn [snd];
      (split; [reflexivity|]); right; (split; [reflexivity|]); right;
      (split; [auto | discriminate]).
Qed.

Lemma queryRecoveryFeed_one_query (topicText publisher : string)
    (w : World) (r : bytes * option error) (w1 : World)
    (evs : list Event) :
  queryRecoveryFeed ctx topicText publisher handler w = (r, w1, evs) ->
  one_query ctx evs.
Proof.
  destruct r as [content err].
  destruct (getFeedTopicAndUser topicText publisher)
    as [[topic user] [e0|]] eqn:Hres.
  - rewrite (queryRecoveryFeed_unresolved ctx handler _ _ w Hres).
    intros [= <- <- <- <-]. left. reflexivity.
  - rewrite (queryRecoveryFeed_resolved ctx handler _ _ w Hres).
    intros Hrun. apply getFeedContent_calls in Hrun.
    right. exists (mkFeed topic user).
    destruct Hrun as [(_ & _ & ->) | [_ ->]]; auto.
Qed.

Lemma queryRecoveryFeed_read_only (topicText publisher : string)
    (w : World) (r : bytes * option error) (w1 : World)
    (evs : list Event) :
  read_only handler ->
  queryRecoveryFeed ctx topicText publisher handler w = (r, w1, evs) ->
  w1 = w.
Proof.
  intros [Hlookup Hcontent].
  destruct (getFeedTopicAndUser topicText publisher)
    as [[topic user] [e0|]] eqn:Hres.
  - rewrite (queryRecoveryFeed_unresolved ctx handler _ _ w Hres).
    intros [= <- <- <-]. reflexivity.
  - rewrite (queryRecoveryFeed_resolved ctx handler _ _ w Hres).
    rewrite getFeedContent_run.
    pose proof (Hlookup (context.WithTimeout ctx 100)
                  (NewQueryLatest (mkFeed topic user) NoClue) w) as Hl.
    destruct (Lookup handler (context.WithTimeout ctx 100)
                (NewQueryLatest (mkFeed topic user) NoClue) w)
      as [lerr w0].
    cbn [snd] in Hl. subst w0.
    destruct (lookupFailed lerr); [intros [= <- <- <-]; reflexivity|].
    pose proof (Hcontent (mkFeed topic user) w) as Hc.
    destruct (GetContent handler (mkFeed topic user) w)
      as [[[addr c] gerr] w2].
    cbn [snd] in Hc. subst w2.
    intros [= <- <- <-]. reflexivity.
Qed.

(** X1.  A feed query that fails returns no content, and its error is the
    error of the topic builder (then nothing was called and the world is
    untouched), or [ErrPublisher] or [ErrPubKey] (the same), or
    [ErrFeedLookup] or [ErrFeedContent] after at least one call of the
    handler.  The error values of the handler never come back. *)
Theorem queryRecoveryFeed_errors (topicText publisher : string) (w : World)
    (content : bytes) (e : error) (w1 : World) (evs : list Event) :
  queryRecoveryFeed ctx topicText publisher handler w
  = ((content, Some e), w1, evs) ->
  content = [] /\
  (snd (feed_NewTopic topicText []) = Some e /\ w1 = w /\ evs = [] \/
   snd (feed_NewTopic topicText []) = None /\
   ((e = ErrPublisher \/ e = ErrPubKey) /\ w1 = w /\ evs = [] \/
    (e = ErrFeedLookup \/ e = ErrFeedContent) /\ evs <> [])).
Proof. exact (@queryRecoveryFeed_failure _ _ _ _ _ _ _). Qed.

End QueryOutcomes.

(** ** Every run of [getPinners] *)

Section PinnerRuns.
Context {L : Library}.
Variables (ctx : Context) (handler : GenericHandler).
Variable fallbackPublisher : string.

Let primary (w : World) :=
  queryRecoveryFeed ctx "RECOVERY"
    (fst (assert_string (context.Value ctx (AnyString "publisher"))))
    handler w.

Let fallback (h : string) (w : World) :=
  queryRecoveryFeed ctx ("RECOVERY_" ++ h)%string fallbackPublisher handler w.

Lemma unmarshalTargets_failure (feedContent : bytes) (targets : Targets)
    (e : error) :
  unmarshalTargets feedContent = (targets, Some e) ->
  targets = [] /\ e = ErrTargets.
Proof.
  unfold unmarshalTargets.
  destruct (json_Unmarshal feedContent) as [t [jerr|]]; [|discriminate].
  intros [= <- <-]. auto.
Qed.

Lemma unmarshalTargets_success (feedContent : bytes) (targets : Targets) :
  unmarshalTargets feedContent = (targets, None) ->
  json_Unmarshal feedContent = (targets, None).
Proof.
  unfold unmarshalTargets.
  destruct (json_Unmarshal feedContent) as [t [jerr|]]; [discriminate|].
  intros [= <-]. reflexivity.
Qed.

(** The five ways a run of [getPinners] can go. *)
Lemma getPinners_cases (w : World) (r : Targets * option error)
    (w2 : World) (evs : list Event) :
  getPinners ctx handler fallbackPublisher w = (r, w2, evs) ->
  (exists content,
     primary w = ((content, None), w2, evs) /\
     r = unmarshalTargets content) \/
  (exists content e,
     primary w = ((content, Some e), w2, evs) /\
     fallbackPublisher = "" /\ r = ([], Some e)) \/
  (exists content e,
     primary w = ((content, Some e), w2, evs) /\
     fallbackPublisher <> "" /\
     (forall h, context.Value ctx (AnyString "hash")
                <> Some (AnyString h)) /\
     r = ([], Some ErrContextHash)) \/
  (exists content e w1 evs1 h content2 err2 evs2,
     primary w = ((content, Some e), w1, evs1) /\
     fallbackPublisher <> "" /\
     context.Value ctx (AnyString "hash") = Some (AnyString h) /\
     fallback h w1 = ((content2, err2), w2, evs2) /\
     evs = evs1 ++ evs2 /\
     r = match err2 with
         | Some _ => ([], err2)
         | None => unmarshalTargets content2
         end).
Proof.
  rewrite getPinners_run. change RecoveryTopicText with "RECOVERY".
  fold (primary w).
  destruct (primary w) as [[[content err] w1] evs1].
  destruct err as [e|].
  - destruct (String.eqb fallbackPublisher "") eqn:Hfb.
    + apply String.eqb_eq in Hfb. intros [= <- <- <-].
      right. left. exists content, e. auto.
    + apply String.eqb_neq in Hfb.
      destruct (context.Value ctx (AnyString "hash")) as [[h|n|b]|] eqn:Hhash;
        cbn [assert_string negb]; cbv beta iota.
      * change ("RECOVERY" ++ "_" ++ h)%string with ("RECOVERY_" ++ h)%string.
        destruct (queryRecoveryFeed ctx ("RECOVERY_" ++ h)%string
                    fallbackPublisher handler w1)
          as [[[content2 err2] w3] evs2] eqn:Hfallback.
        intros [= <- <- <-]. right. right. right.
        exists content, e, w1, evs1, h, content2, err2, evs2.
        repeat split; auto.
      * intros [= <- <- <-]. right. right. left.
        exists content, e. repeat split; auto; discriminate.
      * intros [= <- <- <-]. right. right. left.
        exists content, e. repeat split; auto; discriminate.
      * intros [= <- <- <-]. right. right. left.
        exists content, e. repeat split; auto; discriminate.
  - intros [= <- <- <-]. left. exists content. auto.
Qed.

End PinnerRuns.

(** ** What [getPinners] guarantees to its caller *)

Section PinnerGuarantees.
Context {L : Library}.
Variables (ctx : Context) (handler : GenericHandler).
Variable fallbackPublisher : string.

(** The calls of a run are those of at most two feed queries. *)
Lemma getPinners_two_queries (w : World) (r : Targets * option error)
    (w2 : World) (evs : list Event) :
  getPinners ctx handler fallbackPublisher w = (r, w2, evs) ->
  exists q1 q2,
    evs = q1 ++ q2 /\ one_query ctx q1 /\ one_query ctx q2 /\
    (fallbackPublisher = "" -> q2 = []).
Proof.
  intros Hrun. apply getPinners_cases in Hrun.
  destruct Hrun as [(c & Hp & _) | [(c & e & Hp & _ & _) |
    [(c & e & Hp & _ & _) |
     (c & e & w1 & evs1 & h & c2 & err2 & evs2 & Hp & Hfb & _ & Hf & -> & _)]]].
  - exists evs, []. rewrite app_nil_r.
    apply queryRecoveryFeed_one_query in Hp. unfold one_query at 2. auto.
  - exists evs, []. rewrite app_nil_r.
    apply queryRecoveryFeed_one_query in Hp. unfold one_query at 2. auto.
  - exists evs, []. rewrite app_nil_r.
    apply queryRecoveryFeed_one_query in Hp. unfold one_query at 2. auto.
  - exists evs1, evs2.
    apply queryRecoveryFeed_one_query in Hp.
    apply queryRecoveryFeed_one_query in Hf.
    repeat split; auto. intros Hempty. contradiction.
Qed.

Lemma one_query_length (q : list Event) :
  one_query ctx q -> (List.length q <= 2)%nat.
Proof.
  intros [-> | [fd [-> | ->]]]; simpl; lia.
Qed.

(** X2.  [getPinners] returns no targets with an error, and the error is one
    of the six errors of the package or the error of the topic builder for
    "RECOVERY" or for "RECOVERY_" followed by the hash of the context.  No
    error of the handler or of the decoder comes back as it is. *)
Theorem getPinners_errors (w : World) (targets : Targets) (e : error)
    (w2 : World) (evs : list Event) :
  getPinners ctx handler fallbackPublisher w = ((targets, Some e), w2, evs) ->
  targets = [] /\
  (In e [ErrPublisher; ErrPubKey; ErrFeedLookup; ErrFeedContent;
         ErrContextHash; ErrTargets] \/
   snd (feed_NewTopic "RECOVERY" []) = Some e \/
   exists h,
     context.Value ctx (AnyString "hash") = Some (AnyString h) /\
     snd (feed_NewTopic ("RECOVERY_" ++ h)%string []) = Some e).
Proof.
  assert (forall text publisher w0 c e0 w1 evs0,
            queryRecoveryFeed ctx text publisher handler w0
            = ((c, Some e0), w1, evs0) ->
            In e0 [ErrPublisher; ErrPubKey; ErrFeedLookup; ErrFeedContent;
                   ErrContextHash; ErrTargets] \/
            snd (feed_NewTopic text []) = Some e0) as Hquery.
  { intros text publisher w0 c e0 w1 evs0 Hq.
    apply queryRecoveryFeed_failure in Hq.
    destruct Hq as [_ [(Ht & _) | (_ & [([-> | ->] & _) | ([-> | ->] & _)])]];
      simpl; auto 10. }
  intros Hrun. apply getPinners_cases in Hrun.
  destruct Hrun as [(c & Hp & Hr) | [(c & e1 & Hp & _ & Hr) |
    [(c & e1 & Hp & _ & _ & Hr) |
     (c & e1 & w1 & evs1 & h & c2 & err2 & evs2
      & Hp & Hfb & Hhash & Hf & _ & Hr)]]].
  - symmetry in Hr. apply unmarshalTargets_failure in Hr.
    destruct Hr as [-> ->]. simpl. auto 10.
  - injection Hr as -> ->. split; [reflexivity|].
    destruct (Hquery _ _ _ _ _ _ _ Hp); auto.
  - injection Hr as -> ->. simpl. auto 10.
  - destruct err2 as [e2|].
    + injection Hr as -> ->. split; [reflexivity|].
      destruct (Hquery _ _ _ _ _ _ _ Hf); [auto|].
      right. right. exists h. auto.
    + symmetry in Hr. apply unmarshalTargets_failure in Hr.
      destruct Hr as [-> ->]. simpl. auto 10.
Qed.

(** X3.  The calls of [getPinners] are those of at most two feed queries,
    each one empty, a lookup, or a lookup followed by a content read on the
    same feed: at most four calls, a content read only right after the
    lookup of its feed, and with no fallback publisher at most two calls. *)
Theorem getPinners_calls (w : World) (r : Targets * option error)
    (w2 : World) (evs : list Event) :
  getPinners ctx handler fallbackPublisher w = (r, w2, evs) ->
  (exists q1 q2,
     evs = q1 ++ q2 /\ one_query ctx q1 /\ one_query ctx q2 /\
     (fallbackPublisher = "" -> q2 = [])) /\
  (List.length evs <= 4)%nat /\
  (fallbackPublisher = "" -> (List.length evs <= 2)%nat).
Proof.
  intros Hrun. apply getPinners_two_queries in Hrun.
  destruct Hrun as (q1 & q2 & -> & H1 & H2 & Hnone).
  pose proof (one_query_length H1). pose proof (one_query_length H2).
  split; [exists q1, q2; auto|].
  rewrite length_app. split; [lia|].
  intros Hempty. rewrite (Hnone Hempty). simpl. lia.
Qed.

(** X4.  Every lookup made by [getPinners] carries the bindings of the
    caller's context, the hint [NoClue], and a deadline of at most 100
    milliseconds that is no later than the caller's own deadline. *)
Theorem getPinners_lookup_deadline (w : World) (r : Targets * option error)
    (w2 : World) (evs : list Event) :
  getPinners ctx handler fallbackPublisher w = (r, w2, evs) ->
  forall ctx' query, In (CallLookup ctx' query) evs ->
  bindings ctx' = bindings ctx /\
  Hint query = NoClue /\
  exists d, deadline ctx' = Some d /\ (d <= 100)%Z /\
            forall d0, deadline ctx = Some d0 -> (d <= d0)%Z.
Proof.
  assert (forall q ctx' query,
            one_query ctx q -> In (CallLookup ctx' query) q ->
            ctx' = context.WithTimeout ctx 100 /\ Hint query = NoClue)
    as Hone.
  { intros q ctx' query [-> | [fd [-> | ->]]]; simpl.
    - tauto.
    - intros [[= <- <-] | []]. auto.
    - intros [[= <- <-] | [[=] | []]]. auto. }
  intros Hrun ctx' query Hin. apply getPinners_two_queries in Hrun.
  destruct Hrun as (q1 & q2 & -> & H1 & H2 & _).
  assert (ctx' = context.WithTimeout ctx 100 /\ Hint query = NoClue)
    as [-> Hhint].
  { apply in_app_or in Hin. destruct Hin; eauto. }
  split; [reflexivity|]. split; [exact Hhint|].
  unfold context.WithTimeout; cbn [deadline].
  destruct (deadline ctx) as [d0|].
  - exists (Z.min d0 100). split; [reflexivity|]. split; [lia|].
    intros d1 [= <-]. lia.
  - exists 100%Z. split; [reflexivity|]. split; [lia|]. discriminate.
Qed.

(** X5.  With a handler that only reads, [getPinners] leaves the world as
    it found it. *)
Theorem getPinners_read_only (w : World) (r : Targets * option error)
    (w2 : World) (evs : list Event) :
  read_only handler ->
  getPinners ctx handler fallbackPublisher w = (r, w2, evs) ->
  w2 = w.
Proof.
  intros Hro Hrun. apply getPinners_cases in Hrun.
  destruct Hrun as [(c & Hp & _) | [(c & e & Hp & _ & _) |
    [(c & e & Hp & _ & _) |
     (c & e & w1 & evs1 & h & c2 & err2 & evs2 & Hp & _ & _ & Hf & _ & _)]]].
  - exact (queryRecoveryFeed_read_only _ _ _ _ Hro Hp).
  - exact (queryRecoveryFeed_read_only _ _ _ _ Hro Hp).
  - exact (queryRecoveryFeed_read_only _ _ _ _ Hro Hp).
  - apply (queryRecoveryFeed_read_only _ _ _ _ Hro) in Hp. subst w1.
    exact (queryRecoveryFeed_read_only _ _ _ _ Hro Hf).
Qed.

(** X6.  Targets returned without error are the decoded content of a feed
    query that succeeded: the primary one, or the fallback one after the
    primary one failed; and the last call made is the content read that
    fetched them. *)
Theorem getPinners_success (w : World) (targets : Targets) (w2 : World)
    (evs : list Event) :
  getPinners ctx handler fallbackPublisher w = ((targets, None), w2, evs) ->
  exists content,
    json_Unmarshal content = (targets, None) /\
    (exists fd evs0, evs = evs0 ++ [CallGetContent fd]) /\
    (queryRecoveryFeed ctx "RECOVERY"
       (fst (assert_string (context.Value ctx (AnyString "publisher"))))
       handler w
     = ((content, None), w2, evs) \/
     exists h content1 e1 w1 evs1 evs2,
       context.Value ctx (AnyString "hash") = Some (AnyString h) /\
       fallbackPublisher <> "" /\
       queryRecoveryFeed ctx "RECOVERY"
         (fst (assert_string (context.Value ctx (AnyString "publisher"))))
         handler w
       = ((content1, Some e1), w1, evs1) /\
       queryRecoveryFeed ctx ("RECOVERY_" ++ h)%string fallbackPublisher
         handler w1
       = ((content, None), w2, evs2) /\
       evs = evs1 ++ evs2).
Proof.
  intros Hrun. apply getPinners_cases in Hrun.
  destruct Hrun as [(c & Hp & Hr) | [(c & e1 & _ & _ & Hr) |
    [(c & e1 & _ & _ & _ & Hr) |
     (c & e1 & w1 & evs1 & h & c2 & err2 & evs2
      & Hp & Hfb & Hhash & Hf & -> & Hr)]]]; try discriminate.
  - symmetry in Hr. apply unmarshalTargets_success in Hr.
    exists c. split; [exact Hr|]. split; [|left; exact Hp].
    destruct (queryRecoveryFeed_ok_calls _ _ _ _ _ Hp)
      as (topic & user & _ & ->).
    exists (mkFeed topic user), [CallLookup (context.WithTimeout ctx 100)
                                   (NewQueryLatest (mkFeed topic user) NoClue)].
    reflexivity.
  - destruct err2 as [e2|]; [discriminate|].
    symmetry in Hr. apply unmarshalTargets_success in Hr.
    exists c2. split; [exact Hr|]. split.
    + destruct (queryRecoveryFeed_ok_calls _ _ _ _ _ Hf)
        as (topic & user & _ & ->).
      exists (mkFeed topic user),
        (evs1 ++ [CallLookup (context.WithTimeout ctx 100)
                    (NewQueryLatest (mkFeed topic user) NoClue)]).
      rewrite <- app_assoc. reflexivity.
    + right. exists h, c, e1, w1, evs1, evs2. auto 10.
Qed.

End PinnerGuarantees.

(** ** What the hook and the repair handler guarantee *)

Section HookGuarantees.
Context {L : Library}.
Variables (send : sender) (handler : GenericHandler).
Variables (fallbackPublisher : string) (ctx : Context).
Variable chunkAddress : ChunkAddress.

(** The two ways a run of the hook can go. *)
Lemma NewRecoveryHook_cases (w : World) (r : option error) (w2 : World)
    (evs : list Event) :
  NewRecoveryHook send handler fallbackPublisher ctx chunkAddress w
  = (r, w2, evs) ->
  (exists targets e,
     getPinners ctx handler fallbackPublisher w
     = ((targets, Some e), w2, evs) /\ r = Some e) \/
  (exists targets w1 evs0 monitor,
     getPinners ctx handler fallbackPublisher w
     = ((targets, None), w1, evs0) /\
     send ctx targets RecoveryTopic chunkAddress w1 = ((monitor, r), w2) /\
     evs = evs0 ++ [CallSend ctx targets RecoveryTopic chunkAddress]).
Proof.
  unfold NewRecoveryHook, bind.
  destruct (getPinners ctx handler fallbackPublisher w)
    as [[[targets err] w1] evs0].
  destruct err as [e|].
  - unfold ret. rewrite app_nil_r. intros [= <- <- <-].
    left. exists targets, e. auto.
  - unfold call.
    destruct (send ctx targets RecoveryTopic chunkAddress w1)
      as [[monitor serr] w3] eqn:Hsend.
    assert (forall x : option error,
              (match x with Some _ => ret x | None => ret None end) w3
              = (x, w3, @nil Event)) as Hret by (intros [e|]; reflexivity).
    rewrite Hret. cbn [app]. intros [= <- <- <-].
    right. exists targets, w1, evs0, monitor. auto.
Qed.

(** One run of the repair handler. *)
Lemma NewRepairHandler_run (s : ValidatorStore) (m : Message) (w : World) :
  NewRepairHandler s m w
  = (tt, snd (Set_ s context.Background ModeSetReUpload [Payload m] w),
     [CallSet context.Background ModeSetReUpload [Payload m]]).
Proof.
  unfold NewRepairHandler, bind, call, ret.
  destruct (Set_ s context.Background ModeSetReUpload [Payload m] w)
    as [serr w1].
  reflexivity.
Qed.

(** X7.  A hook that returns nil has handed the message to the sender: the
    pinners were resolved without error, the sender was called exactly
    once, as the last call, with the recovery topic, those targets and the
    chunk address, and it reported no error. *)
Theorem NewRecoveryHook_nil (w w2 : World) (evs : list Event) :
  NewRecoveryHook send handler fallbackPublisher ctx chunkAddress w
  = (None, w2, evs) ->
  exists targets w1 evs0 monitor,
    getPinners ctx handler fallbackPublisher w
    = ((targets, None), w1, evs0) /\
    send ctx targets (trojan_NewTopic "RECOVERY") chunkAddress w1
    = ((monitor, None), w2) /\
    evs = evs0 ++ [CallSend ctx targets (trojan_NewTopic "RECOVERY")
                     chunkAddress] /\
    sends evs0 = [].
Proof.
  intros Hrun. apply NewRecoveryHook_cases in Hrun.
  destruct Hrun as [(targets & e & _ & Habs) |
                    (targets & w1 & evs0 & monitor & Hp & Hs & ->)];
    [discriminate|].
  exists targets, w1, evs0, monitor.
  pose proof (getPinners_no_send _ _ _ _ Hp). auto.
Qed.

(** X8.  A run of the hook makes at most five calls, never one to the chunk
    store, and at most one to the sender, which is then the last call. *)
Theorem NewRecoveryHook_calls (w : World) (r : option error) (w2 : World)
    (evs : list Event) :
  NewRecoveryHook send handler fallbackPublisher ctx chunkAddress w
  = (r, w2, evs) ->
  (List.length evs <= 5)%nat /\
  filter is_set evs = [] /\
  (List.length (sends evs) <= 1)%nat /\
  sends (removelast evs) = [].
Proof.
  assert (forall q, one_query ctx q -> filter is_set q = []) as Hquiet.
  { intros q [-> | [fd [-> | ->]]]; reflexivity. }
  assert (forall r0 w0 w1 evs0,
            getPinners ctx handler fallbackPublisher w0 = (r0, w1, evs0) ->
            (List.length evs0 <= 4)%nat /\ filter is_set evs0 = [] /\
            sends evs0 = []) as Hpinners.
  { intros r0 w0 w1 evs0 Hp.
    pose proof (getPinners_no_send _ _ _ _ Hp) as Hns.
    apply getPinners_two_queries in Hp.
    destruct Hp as (q1 & q2 & -> & H1 & H2 & _).
    pose proof (one_query_length H1). pose proof (one_query_length H2).
    rewrite length_app, filter_app, (Hquiet _ H1), (Hquiet _ H2).
    split; [lia | split; [reflexivity | exact Hns]]. }
  intros Hrun. apply NewRecoveryHook_cases in Hrun.
  destruct Hrun as [(targets & e & Hp & _) |
                    (targets & w1 & evs0 & monitor & Hp & _ & ->)];
    apply Hpinners in Hp; destruct Hp as (Hlen & Hset & Hsend).
  - rewrite Hsend.
    split; [lia | split; [exact Hset | split; [simpl; lia|]]].
    destruct evs as [|ev evs' _] using rev_ind; [reflexivity|].
    rewrite removelast_last. unfold sends in *.
    rewrite filter_app in Hsend. apply app_eq_nil in Hsend. tauto.
  - rewrite removelast_last. unfold sends in *.
    rewrite length_app, !filter_app, Hset, Hsend. simpl.
    split; [lia | split; [reflexivity | split; [lia | reflexivity]]].
Qed.

(** X9.  From one end to the other: when the message of the hook is handed
    to a repair handler, the chunk store is asked to re-upload exactly the
    chunk address the hook was called with, once, and the hook returns
    nil. *)
Theorem loopback_reupload (s : ValidatorStore) (w : World)
    (targets : Targets) (w1 : World) (evs : list Event) :
  getPinners ctx handler fallbackPublisher w = ((targets, None), w1, evs) ->
  NewRecoveryHook (loopback s) handler fallbackPublisher ctx chunkAddress w
  = (None,
     snd (Set_ s context.Background ModeSetReUpload [chunkAddress] w1),
     evs ++ [CallSend ctx targets RecoveryTopic chunkAddress]) /\
  (forall m, Payload m = chunkAddress ->
     snd (NewRepairHandler s m w1)
     = [CallSet context.Background ModeSetReUpload [chunkAddress]]).
Proof.
  intros Hp. split.
  - unfold NewRecoveryHook, bind. rewrite Hp.
    unfold call, loopback. rewrite NewRepairHandler_run. reflexivity.
  - intros m <-. rewrite NewRepairHandler_run. reflexivity.
Qed.

(** X10.  Messages delivered one after the other give one request each, in
    the order of delivery, each for the payload of its message; the world
    is the one the store leaves after those requests. *)
Theorem deliver_requests (s : ValidatorStore) (ms : list Message)
    (w : World) :
  deliver (NewRepairHandler s) ms w
  = (tt,
     fold_left
       (fun w0 m =>
          snd (Set_ s context.Background ModeSetReUpload [Payload m] w0))
       ms w,
     map (fun m => CallSet context.Background ModeSetReUpload [Payload m])
         ms).
Proof.
  revert w. induction ms as [|m rest IH]; intros w; [reflexivity|].
  cbn [deliver fold_left map]. unfold bind.
  rewrite NewRepairHandler_run, IH. reflexivity.
Qed.

End HookGuarantees.

(** ** Publishers are read without regard to case *)

Lemma fromHexChar_upper (c : ascii) :
  hex.fromHexChar (upper c) = hex.fromHexChar c.
Proof.
  destruct c as [b0 b1 b2 b3 b4 b5 b6 b7].
  destruct b0, b1, b2, b3, b4, b5, b6, b7; reflexivity.
Qed.

Lemma Decode_upper_pair (l : list ascii) :
  (fst (hex.Decode (map upper l)) = fst (hex.Decode l) /\
   (snd (hex.Decode (map upper l)) = None <-> snd (hex.Decode l) = None)) /\
  (forall c,
     fst (hex.Decode (map upper (c :: l))) = fst (hex.Decode (c :: l)) /\
     (snd (hex.Decode (map upper (c :: l))) = None <->
      snd (hex.Decode (c :: l)) = None)).
Proof.
  induction l as [|q rest [IHeven IHodd]].
  - split; [simpl; tauto|].
    intros c. cbn [map hex.Decode]. rewrite fromHexChar_upper.
    destruct (snd (hex.fromHexChar c)); simpl; split; auto;
      split; discriminate.
  - split; [apply IHodd|].
    intros p. cbn [map].
    change (hex.Decode (upper p :: upper q :: map upper rest)) with
      (let '(a, oka) := hex.fromHexChar (upper p) in
       if negb oka then ([], Some (hex.InvalidByteError (upper p))) else
       let '(b, okb) := hex.fromHexChar (upper q) in
       if negb okb then ([], Some (hex.InvalidByteError (upper q))) else
       let '(out, err) := hex.Decode (map upper rest) in
       (byte_of_N (N.lor (N.shiftl a 4) b) :: out, err)).
    change (hex.Decode (p :: q :: rest)) with
      (let '(a, oka) := hex.fromHexChar p in
       if negb oka then ([], Some (hex.InvalidByteError p)) else
       let '(b, okb) := hex.fromHexChar q in
       if negb okb then ([], Some (hex.InvalidByteError q)) else
       let '(out, err) := hex.Decode rest in
       (byte_of_N (N.lor (N.shiftl a 4) b) :: out, err)).
    rewrite !fromHexChar_upper.
    destruct (hex.fromHexChar p) as [a [|]]; cbn [negb];
      [|simpl; split; [reflexivity | split; discriminate]].
    destruct (hex.fromHexChar q) as [b [|]]; cbn [negb];
      [|simpl; split; [reflexivity | split; discriminate]].
    destruct IHeven as [Hfst Hsnd].
    destruct (hex.Decode (map upper rest)) as [out1 err1].
    destruct (hex.Decode rest) as [out2 err2].
    cbn [fst snd] in *. subst out1. auto.
Qed.

Lemma chars_uppercase (s : string) :
  list_ascii_of_string (uppercase s) = map upper (list_ascii_of_string s).
Proof. induction s as [|c s IH]; simpl; congruence. Qed.

Lemma publisherToAddress_uppercase {L : Library} (publisher : string) :
  publisherToAddress (uppercase publisher) = publisherToAddress publisher.
Proof.
  unfold publisherToAddress, hex.DecodeString. rewrite chars_uppercase.
  destruct (Decode_upper_pair (list_ascii_of_string publisher))
    as [[Hfst Hsnd] _].
  destruct (hex.Decode (map upper (list_ascii_of_string publisher)))
    as [bs1 [e1|]];
    destruct (hex.Decode (list_ascii_of_string publisher)) as [bs2 [e2|]];
    cbn [fst snd] in *; subst; try reflexivity.
  - destruct Hsnd as [_ Habs]. discriminate (Habs eq_refl).
  - destruct Hsnd as [Habs _]. discriminate (Habs eq_refl).
Qed.

(** X11.  Two publishers that differ only in the case of their letters
    resolve to the same address or fail with the same error, and a feed
    query with one is the feed query with the other. *)
Theorem publisher_case_insensitive {L : Library} (p q : string) :
  uppercase p = uppercase q ->
  publisherToAddress p = publisherToAddress q /\
  forall ctx topicText handler w,
    queryRecoveryFeed ctx topicText p handler w
    = queryRecoveryFeed ctx topicText q handler w.
Proof.
  intros Hcase.
  assert (publisherToAddress p = publisherToAddress q) as Haddr.
  { rewrite <- (publisherToAddress_uppercase p),
            <- (publisherToAddress_uppercase q), Hcase.
    reflexivity. }
  split; [exact Haddr|].
  intros ctx topicText handler w.
  unfold queryRecoveryFeed, getFeedTopicAndUser. rewrite Haddr. reflexivity.
Qed.

(** ** [CheckTag] *)

Section CheckTagProperties.
Variable State : Type.
Variables StateSplit StateSeen StateStored : State.

(** X12.  [CheckTag] passes exactly when the tag is there and its split,
    seen and stored counters and its total are the expected ones; the
    expected sent and synced counts play no part. *)
Theorem CheckTag_passes_iff (tag : option (Tag State))
    (split stored seen sent synced total : Z) :
  CheckTag StateSplit StateSeen StateStored tag
    split stored seen sent synced total = Passed <->
  exists tg,
    tag = Some tg /\
    Get tg StateSplit = split /\ Get tg StateSeen = seen /\
    Get tg StateStored = stored /\ TotalCounter tg = total.
Proof.
  unfold CheckTag. split.
  - destruct tag as [tg|]; [|discriminate].
    destruct (Z.eqb_spec (Get tg StateSplit) split); [|discriminate].
    destruct (Z.eqb_spec (Get tg StateSeen) seen); [|discriminate].
    destruct (Z.eqb_spec (Get tg StateStored) stored); [|discriminate].
    destruct (Z.eqb_spec (TotalCounter tg) total); [|discriminate].
    intros _. exists tg. auto.
  - intros (tg & -> & <- & <- & <- & <-).
    rewrite !Z.eqb_refl. reflexivity.
Qed.

(** X13.  The outcome of [CheckTag], message included, depends on the tag
    only through its split, seen and stored counters and its total, and not
    at all on the expected sent and synced counts. *)
Theorem CheckTag_reads_four_counters (t1 t2 : Tag State)
    (split stored seen sent synced sent' synced' total : Z) :
  Get t1 StateSplit = Get t2 StateSplit ->
  Get t1 StateSeen = Get t2 StateSeen ->
  Get t1 StateStored = Get t2 StateStored ->
  TotalCounter t1 = TotalCounter t2 ->
  CheckTag StateSplit StateSeen StateStored (Some t1)
    split stored seen sent synced total
  = CheckTag StateSplit StateSeen StateStored (Some t2)
      split stored seen sent' synced' total.
Proof.
  intros Hsplit Hseen Hstored Htotal. unfold CheckTag.
  rewrite Hsplit, Hseen, Hstored, Htotal. reflexivity.
Qed.

(** X14.  [CheckTag] reports the first mismatch in the order split, seen,
    stored, total, with the counter read and the expected value; so a seen
    mismatch hides a stored one, and both hide a wrong total. *)
Theorem CheckTag_first_mismatch (tg : Tag State)
    (split stored seen sent synced total : Z) :
  (Get tg StateSplit <> split ->
   CheckTag StateSplit StateSeen StateStored (Some tg)
     split stored seen sent synced total
   = Fatal "should have had split chunks, got %d want %d"
       [Get tg StateSplit; split]) /\
  (Get tg StateSplit = split -> Get tg StateSeen <> seen ->
   CheckTag StateSplit StateSeen StateStored (Some tg)
     split stored seen sent synced total
   = Fatal "should have had seen chunks, got %d want %d"
       [Get tg StateSeen; seen]) /\
  (Get tg StateSplit = split -> Get tg StateSeen = seen ->
   Get tg StateStored <> stored ->
   CheckTag StateSplit StateSeen StateStored (Some tg)
     split stored seen sent synced total
   = Fatal "mismatch stored chunks, got %d want %d"
       [Get tg StateStored; stored]) /\
  (Get tg StateSplit = split -> Get tg StateSeen = seen ->
   Get tg StateStored = stored -> TotalCounter tg <> total ->
   CheckTag StateSplit StateSeen StateStored (Some tg)
     split stored seen sent synced total
   = Fatal "mismatch total chunks, got %d want %d"
       [TotalCounter tg; total]).
Proof.
  unfold CheckTag. repeat split; intros;
    repeat match goal with
           | H : _ = _ |- _ => apply Z.eqb_eq in H; rewrite H
           | H : _ <> _ |- _ => apply Z.eqb_neq in H; rewrite H
           end; reflexivity.
Qed.

End CheckTagProperties.

(** ** Prices *)

(** X15.  The two prices are what their documentation derives: a tenth and
    nine tenths, to the nearest unit, of 8636144578.31 wei per chunk; they
    add up to the whole part of that amount; both fit an unsigned 64-bit
    integer and the delivery price does not fit 32 bits. *)
Theorem prices_as_documented :
  swap.wei_per_chunk_x100 = 863614457831%Z /\
  swap.RetrieveRequestPrice = swap.tenths 1 swap.wei_per_chunk_x100 /\
  swap.ChunkDeliveryPrice = swap.tenths 9 swap.wei_per_chunk_x100 /\
  (swap.RetrieveRequestPrice + swap.ChunkDeliveryPrice
   = swap.wei_per_chunk_x100 / 100)%Z /\
  (0 <= swap.RetrieveRequestPrice < 2 ^ 64)%Z /\
  (2 ^ 32 <= swap.ChunkDeliveryPrice < 2 ^ 64)%Z.
Proof.
  repeat split; vm_compute; congruence.
Qed.

(** ** The further properties at work on the node *)

(** Nothing is published: the query of the primary feed fails on the
    content read. *)
Lemma queryRecoveryFeed_errors_run :
  snd (@feed_NewTopic Node.library "RECOVERY" []) = None /\
  Node.calls_on Node.ctx_alice Node.recovery_feed <> [].
Proof.
  assert (queryRecoveryFeed Node.ctx_alice "RECOVERY" Node.alice
            Node.handler Node.empty_world
          = (([], Some ErrFeedContent), Node.empty_world,
             Node.calls_on Node.ctx_alice Node.recovery_feed))
    as Hrun by reflexivity.
  destruct (proj2 (@queryRecoveryFeed_errors Node.library Node.ctx_alice
                     Node.handler "RECOVERY" Node.alice Node.empty_world
                     _ _ _ _ Hrun))
    as [(Habs & _) | (Htopic & [([Habs | Habs] & _) | (_ & Hcalls)])];
    try discriminate Habs.
  split; [exact Htopic | exact Hcalls].
Defined.

(** No hash in the context: the error is one of the six of the package. *)
Lemma getPinners_errors_run :
  In ErrContextHash
     [ErrPublisher; ErrPubKey; ErrFeedLookup; ErrFeedContent;
      ErrContextHash; ErrTargets].
Proof.
  assert (getPinners Node.ctx_alice Node.handler Node.bob Node.empty_world
          = (([], Some ErrContextHash), Node.empty_world,
             Node.calls_on Node.ctx_alice Node.recovery_feed))
    as Hrun by reflexivity.
  destruct (proj2 (@getPinners_errors Node.library Node.ctx_alice
                     Node.handler Node.bob Node.empty_world _ _ _ _ Hrun))
    as [Hin | [Habs | (h & Habs & _)]];
    [exact Hin | discriminate Habs | discriminate Habs].
Defined.

(** Primary and fallback query, four calls. *)
Lemma getPinners_calls_run :
  (List.length (Node.calls_on Node.ctx_alice_hash Node.recovery_feed
                ++ Node.calls_on Node.ctx_alice_hash Node.fallback_feed)
   <= 4)%nat.
Proof.
  assert (getPinners Node.ctx_alice_hash Node.handler Node.bob
            Node.w_fallback
          = (([[x01; x02; x03]], None), Node.w_fallback,
             Node.calls_on Node.ctx_alice_hash Node.recovery_feed
             ++ Node.calls_on Node.ctx_alice_hash Node.fallback_feed))
    as Hrun by reflexivity.
  exact (proj1 (proj2 (@getPinners_calls Node.library Node.ctx_alice_hash
                         Node.handler Node.bob Node.w_fallback _ _ _ Hrun))).
Defined.

(** A caller whose deadline has passed: the lookup inherits it. *)
Lemma getPinners_lookup_deadline_run :
  exists d,
    deadline (context.WithTimeout Node.ctx_expired 100) = Some d /\
    (d <= 100)%Z /\
    forall d0, deadline Node.ctx_expired = Some d0 -> (d <= d0)%Z.
Proof.
  assert (getPinners Node.ctx_expired Node.handler "" Node.w_primary
          = (([], Some ErrFeedLookup), Node.w_primary,
             [CallLookup (context.WithTimeout Node.ctx_expired 100)
                (NewQueryLatest Node.recovery_feed NoClue)]))
    as Hrun by reflexivity.
  exact (proj2 (proj2 (@getPinners_lookup_deadline Node.library
                         Node.ctx_expired Node.handler "" Node.w_primary
                         _ _ _ Hrun _ _ (or_introl eq_refl)))).
Defined.

(** The handler of the node only reads. *)
Lemma getPinners_read_only_run :
  read_only Node.handler /\ Node.w_fallback = Node.w_fallback.
Proof.
  assert (read_only Node.handler) as Hro.
  { split.
    - intros ctx query w. cbn [Lookup Node.handler].
      destruct (Node.expired ctx); [reflexivity|].
      destruct (existsb (Node.feed_eqb (QueryFeed query)) (Node.updates w));
        reflexivity.
    - intros fd w. cbn [GetContent Node.handler].
      destruct (Node.content_of fd (Node.contents w)); reflexivity. }
  assert (getPinners Node.ctx_alice_hash Node.handler Node.bob
            Node.w_fallback
          = (([[x01; x02; x03]], None), Node.w_fallback,
             Node.calls_on Node.ctx_alice_hash Node.recovery_feed
             ++ Node.calls_on Node.ctx_alice_hash Node.fallback_feed))
    as Hrun by reflexivity.
  split; [exact Hro|].
  exact (@getPinners_read_only Node.library Node.ctx_alice_hash
           Node.handler Node.bob Node.w_fallback _ _ _ Hro Hrun).
Defined.

(** Targets found on the fallback feed. *)
Lemma getPinners_success_run :
  exists content,
    @json_Unmarshal Node.library content = ([[x01; x02; x03]], None).
Proof.
  assert (getPinners Node.ctx_alice_hash Node.handler Node.bob
            Node.w_fallback
          = (([[x01; x02; x03]], None), Node.w_fallback,
             Node.calls_on Node.ctx_alice_hash Node.recovery_feed
             ++ Node.calls_on Node.ctx_alice_hash Node.fallback_feed))
    as Hrun by reflexivity.
  destruct (@getPinners_success Node.library Node.ctx_alice_hash
              Node.handler Node.bob Node.w_fallback _ _ _ Hrun)
    as (content & Hjson & _).
  exists content. exact Hjson.
Defined.

(** The hook returns nil on a node whose primary feed has content. *)
Lemma NewRecoveryHook_nil_run :
  exists targets w1 monitor,
    Node.send Node.ctx_alice targets (@trojan_NewTopic Node.library "RECOVERY")
      Node.chunk_address w1
    = ((monitor, None), Node.w_sent).
Proof.
  assert (NewRecoveryHook Node.send Node.handler Node.bob Node.ctx_alice
            Node.chunk_address Node.w_primary
          = (None, Node.w_sent,
             Node.calls_on Node.ctx_alice Node.recovery_feed
             ++ [Node.sent Node.chunk_address]))
    as Hrun by reflexivity.
  destruct (@NewRecoveryHook_nil Node.library Node.send Node.handler
              Node.bob Node.ctx_alice Node.chunk_address Node.w_primary
              _ _ Hrun)
    as (targets & w1 & evs0 & monitor & _ & Hsend & _).
  exists targets, w1, monitor. exact Hsend.
Defined.

Lemma NewRecoveryHook_calls_run :
  (List.length (Node.calls_on Node.ctx_alice Node.recovery_feed
                ++ [Node.sent Node.chunk_address]) <= 5)%nat.
Proof.
  assert (NewRecoveryHook Node.send Node.handler Node.bob Node.ctx_alice
            Node.chunk_address Node.w_primary
          = (None, Node.w_sent,
             Node.calls_on Node.ctx_alice Node.recovery_feed
             ++ [Node.sent Node.chunk_address]))
    as Hrun by reflexivity.
  exact (proj1 (@NewRecoveryHook_calls Node.library Node.send Node.handler
                  Node.bob Node.ctx_alice Node.chunk_address Node.w_primary
                  _ _ _ Hrun)).
Defined.

(** The hook of the node wired to its own repair handler. *)
Lemma loopback_reupload_run :
  NewRecoveryHook (loopback Node.store) Node.handler Node.bob Node.ctx_alice
    Node.chunk_address Node.w_primary
  = (None,
     snd (Set_ Node.store context.Background ModeSetReUpload
            [Node.chunk_address] Node.w_primary),
     Node.calls_on Node.ctx_alice Node.recovery_feed
     ++ [CallSend Node.ctx_alice [[x01; x02; x03]]
           (@RecoveryTopic Node.library) Node.chunk_address]).
Proof.
  assert (getPinners Node.ctx_alice Node.handler Node.bob Node.w_primary
          = (([[x01; x02; x03]], None), Node.w_primary,
             Node.calls_on Node.ctx_alice Node.recovery_feed))
    as Hfound by reflexivity.
  exact (proj1 (@loopback_reupload Node.library Node.handler Node.bob
                  Node.ctx_alice Node.chunk_address Node.store
                  Node.w_primary _ _ _ Hfound)).
Defined.

Lemma publisher_case_insensitive_run :
  publisherToAddress (L := Node.library) Node.alice_upper
  = publisherToAddress (L := Node.library) Node.alice.
Proof.
  exact (proj1 (@publisher_case_insensitive Node.library Node.alice_upper
                  Node.alice eq_refl)).
Defined.

Lemma CheckTag_passes_iff_run :
  CheckTag Node.Split Node.Seen Node.Stored (Some Node.tag_a) 10 8 2 0 0 10
  = Passed.
Proof.
  apply (proj2 (CheckTag_passes_iff Node.Split Node.Seen Node.Stored
                  (Some Node.tag_a) 10 8 2 0 0 10)).
  exists Node.tag_a. repeat split.
Defined.

Lemma CheckTag_reads_four_counters_run :
  CheckTag Node.Split Node.Seen Node.Stored (Some Node.tag_a) 10 8 3 1 0 10
  = CheckTag Node.Split Node.Seen Node.Stored (Some Node.tag_b) 10 8 3 5 5 10.
Proof.
  exact (@CheckTag_reads_four_counters _ Node.Split Node.Seen Node.Stored
           Node.tag_a Node.tag_b 10 8 3 1 0 5 5 10
           eq_refl eq_refl eq_refl eq_refl).
Defined.

(** Seen and stored both wrong: the seen counter is the one reported. *)
Lemma CheckTag_first_mismatch_run :
  CheckTag Node.Split Node.Seen Node.Stored (Some Node.tag_a) 10 7 3 0 0 10
  = Fatal "should have had seen chunks, got %d want %d" [2; 3]%Z.
Proof.
  refine (proj1 (proj2 (@CheckTag_first_mismatch _ Node.Split Node.Seen
                          Node.Stored Node.tag_a 10 7 3 0 0 10))
            eq_refl _).
  discriminate.
Defined.
